(** * BigUpload FastAPI backend: the upload service

    A shallow embedding of
    [packages/backend/python/src/bigupload_fastapi/service.py]
    (classes [FileMetadata] and [UploadService]) together with the parts of
    [config.py] and [models.py] it uses, and the properties of the
    verify / upload-chunk / merge protocol that hold of it.

    Layout: library functions the service calls ([hashlib.sha256],
    [os.path.splitext]), the Python [dict] of sessions, the configuration,
    the request and response models, the service state and its
    operations, then the theorems. *)

From Stdlib Require Import ZArith List Strings.String Strings.Ascii Strings.Byte Lia.
From stdpp Require Import base option gmap sets list strings pretty.

Local Open Scope Z_scope.

(** ** [hashlib.sha256]

    SHA-256 as in FIPS 180-4, on 32-bit words kept in [Z] with the
    wrap-around written out.  The round constants and the initial hash
    value are computed from the first 64 (resp. 8) primes, as the standard
    defines them, instead of being listed. *)
Module SHA256.

Definition mask32 (x : Z) : Z := Z.land x 0xFFFFFFFF.
Definition add32 (x y : Z) : Z := mask32 (x + y).
Definition rotr (n x : Z) : Z :=
  Z.lor (Z.shiftr x n) (mask32 (Z.shiftl x (32 - n))).
Definition shr (n x : Z) : Z := Z.shiftr x n.
Definition not32 (x : Z) : Z := Z.lxor x 0xFFFFFFFF.

Definition Ch (x y z : Z) : Z := Z.lxor (Z.land x y) (Z.land (not32 x) z).
Definition Maj (x y z : Z) : Z :=
  Z.lxor (Z.lxor (Z.land x y) (Z.land x z)) (Z.land y z).
Definition bsig0 (x : Z) : Z := Z.lxor (Z.lxor (rotr 2 x) (rotr 13 x)) (rotr 22 x).
Definition bsig1 (x : Z) : Z := Z.lxor (Z.lxor (rotr 6 x) (rotr 11 x)) (rotr 25 x).
Definition ssig0 (x : Z) : Z := Z.lxor (Z.lxor (rotr 7 x) (rotr 18 x)) (shr 3 x).
Definition ssig1 (x : Z) : Z := Z.lxor (Z.lxor (rotr 17 x) (rotr 19 x)) (shr 10 x).

(** Primes by trial division against the primes found so far. *)
Fixpoint primes_from (fuel : nat) (n : Z) (found : list Z) : list Z :=
  match fuel with
  | O => found
  | S fuel' =>
      if forallb (fun p => negb (n mod p =? 0)) found
      then primes_from fuel' (n + 1) (found ++ [n])
      else primes_from fuel' (n + 1) found
  end.

Definition primes64 : list Z := Eval vm_compute in primes_from 310 2 [].

(** Largest [r] below [2^bits] with [r^3 <= x], one bit at a time. *)
Fixpoint icbrt_bits (bits : nat) (x r : Z) : Z :=
  match bits with
  | O => r
  | S b =>
      let r' := r + 2 ^ Z.of_nat b in
      icbrt_bits b x (if r' * r' * r' <=? x then r' else r)
  end.

Definition frac_cbrt32 (p : Z) : Z := mask32 (icbrt_bits 36 (p * 2 ^ 96) 0).
Definition frac_sqrt32 (p : Z) : Z := mask32 (Z.sqrt (p * 2 ^ 64)).

Definition K : list Z := Eval vm_compute in map frac_cbrt32 primes64.
Definition H0 : list Z := Eval vm_compute in map frac_sqrt32 (take 8 primes64).

(** Big-endian bytes of [x], [n] of them. *)
Fixpoint be_bytes (n : nat) (x : Z) : list Z :=
  match n with
  | O => []
  | S n' => Z.land (Z.shiftr x (8 * Z.of_nat n')) 0xFF :: be_bytes n' x
  end.

Definition pad (msg : list Z) : list Z :=
  let len := Z.of_nat (length msg) in
  msg ++ [0x80] ++ repeat 0 (Z.to_nat ((55 - len) mod 64)) ++ be_bytes 8 (8 * len).

Definition be_word (bs : list Z) : Z :=
  fold_left (fun acc b => Z.lor (Z.shiftl acc 8) b) bs 0.

Fixpoint words (n : nat) (bs : list Z) : list Z :=
  match n with
  | O => []
  | S n' => be_word (take 4 bs) :: words n' (drop 4 bs)
  end.

(** The message schedule, most recent word first while it is built. *)
Fixpoint extend (n : nat) (w : list Z) : list Z :=
  match n with
  | O => w
  | S n' =>
      let wt := add32 (add32 (ssig1 (nth 1 w 0)) (nth 6 w 0))
                      (add32 (ssig0 (nth 14 w 0)) (nth 15 w 0)) in
      extend n' (wt :: w)
  end.

Definition schedule (block : list Z) : list Z :=
  rev (extend 48 (rev (words 16 block))).

Record regs := Regs { ra : Z; rb : Z; rc : Z; rd : Z; re : Z; rf : Z; rg : Z; rh : Z }.

Definition round (s : regs) (kw : Z * Z) : regs :=
  let t1 := add32 (add32 (add32 (add32 (rh s) (bsig1 (re s))) (Ch (re s) (rf s) (rg s)))
                         (fst kw)) (snd kw) in
  let t2 := add32 (bsig0 (ra s)) (Maj (ra s) (rb s) (rc s)) in
  Regs (add32 t1 t2) (ra s) (rb s) (rc s) (add32 (rd s) t1) (re s) (rf s) (rg s).

Definition regs_of (h : list Z) : regs :=
  Regs (nth 0 h 0) (nth 1 h 0) (nth 2 h 0) (nth 3 h 0)
       (nth 4 h 0) (nth 5 h 0) (nth 6 h 0) (nth 7 h 0).

Definition list_of (s : regs) : list Z :=
  [ra s; rb s; rc s; rd s; re s; rf s; rg s; rh s].

Definition compress (h block : list Z) : list Z :=
  let s := fold_left round (combine K (schedule block)) (regs_of h) in
  zip_with add32 h (list_of s).

Fixpoint blocks (n : nat) (h bs : list Z) : list Z :=
  match n with
  | O => h
  | S n' => blocks n' (compress h (take 64 bs)) (drop 64 bs)
  end.

Definition digest (msg : list byte) : list Z :=
  let p := pad (map (fun b => Z.of_N (Byte.to_N b)) msg) in
  concat (map (be_bytes 4) (blocks (length p / 64)%nat H0 p)).

Definition hexdigit (d : Z) : ascii :=
  ascii_of_N (Z.to_N (if d <? 10 then 48 + d else 87 + d)).

Fixpoint hex (bs : list Z) : string :=
  match bs with
  | [] => EmptyString
  | b :: bs' => String (hexdigit (b / 16)) (String (hexdigit (b mod 16)) (hex bs'))
  end.

(** [hashlib.sha256(data).hexdigest()] *)
Definition hexdigest (msg : list byte) : string := hex (digest msg).

End SHA256.


(** ** [os.path] (posixpath) and [str] methods the service uses *)
Module posixpath.

(** [s.rfind(c)]: the last index at which [c] occurs, [-1] when it does not. *)
Fixpoint rfind_from (c : ascii) (s : string) (i last : Z) : Z :=
  match s with
  | EmptyString => last
  | String a s' => rfind_from c s' (i + 1) (if Ascii.eqb a c then i else last)
  end.

Definition rfind (c : ascii) (s : string) : Z := rfind_from c s 0 (-1).

(** [c in s] *)
Fixpoint contains (c : ascii) (s : string) : bool :=
  match s with
  | EmptyString => false
  | String a s' => Ascii.eqb a c || contains c s'
  end.

(** [p[i:]] and [p[:i]] for [0 <= i]. *)
Definition slice_from (i : Z) (p : string) : string :=
  String.substring (Z.to_nat i) (String.length p - Z.to_nat i) p.
Definition slice_to (i : Z) (p : string) : string :=
  String.substring 0 (Z.to_nat i) p.

(** The [while filenameIndex < dotIndex] loop of [genericpath._splitext]:
    the extension starts at the last dot unless only dots precede it in
    the last path component. *)
Fixpoint skip_leading_dots (fuel : nat) (p : string) (filenameIndex dotIndex : Z)
  : string * string :=
  match fuel with
  | O => (p, EmptyString)
  | S fuel' =>
      if filenameIndex <? dotIndex then
        match String.get (Z.to_nat filenameIndex) p with
        | Some "."%char => skip_leading_dots fuel' p (filenameIndex + 1) dotIndex
        | _ => (slice_to dotIndex p, slice_from dotIndex p)
        end
      else (p, EmptyString)
  end.

(** [os.path.splitext(p)] *)
Definition splitext (p : string) : string * string :=
  let sepIndex := rfind "/" p in
  let dotIndex := rfind "." p in
  if dotIndex >? sepIndex
  then skip_leading_dots (String.length p) p (sepIndex + 1) dotIndex
  else (p, EmptyString).

(** [s.rstrip("/")] *)
Fixpoint rstrip_slash (s : string) : string :=
  match s with
  | EmptyString => EmptyString
  | String a s' =>
      match rstrip_slash s' with
      | EmptyString => if Ascii.eqb a "/" then EmptyString else String a EmptyString
      | t => String a t
      end
  end.

Definition endswith_slash (s : string) : bool :=
  match String.get (String.length s - 1) s with
  | Some "/"%char => negb (String.length s =? 0)%nat
  | _ => false
  end.

(** [os.path.join(a, b)] *)
Definition join (a b : string) : string :=
  match b with
  | String "/" _ => b
  | _ => if (String.length a =? 0)%nat || endswith_slash a
         then String.append a b
         else String.append a (String "/" b)
  end.

End posixpath.

(** ** Python [dict] with string keys

    A [dict] iterates in insertion order, and [verify_file] iterates over
    the sessions, so the order is kept: an association list without
    repeated keys.  Assigning to a key that is present replaces the value
    where it stands; a new key goes to the end. *)
Module PyDict.

Definition t (V : Type) : Type := list (string * V).

Definition empty {V} : t V := [].

Fixpoint get {V} (k : string) (d : t V) : option V :=
  match d with
  | [] => None
  | (k', v) :: d' => if String.eqb k' k then Some v else get k d'
  end.

(** [k in d] *)
Definition mem {V} (k : string) (d : t V) : bool :=
  match get k d with Some _ => true | None => false end.

(** [d[k] = v] *)
Fixpoint set {V} (k : string) (v : V) (d : t V) : t V :=
  match d with
  | [] => [(k, v)]
  | (k', v') :: d' =>
      if String.eqb k' k then (k', v) :: d' else (k', v') :: set k v d'
  end.

(** [del d[k]] on a key that is present: its entry goes, the others keep
    their order. *)
Fixpoint del {V} (k : string) (d : t V) : t V :=
  match d with
  | [] => []
  | (k', v') :: d' => if String.eqb k' k then del k d' else (k', v') :: del k d'
  end.

(** [d.values()] *)
Definition values {V} (d : t V) : list V := map snd d.

End PyDict.

(** ** [config.py]: [UploadConfig] *)
Record UploadConfig := {
  upload_path : string;
  temp_path : string;
  base_url : string;
  max_file_size : Z;
  chunk_size : Z;
  concurrent : Z;
  enable_file_server : bool;
  file_server_path : string
}.

(** [UploadConfig.__init__]; [temp_path or os.path.join(upload_path, "temp")]
    takes the default for [None] and for the empty string. *)
Definition UploadConfig_init (upload_path : string) (temp_path : option string)
    (base_url : string) (max_file_size chunk_size concurrent : Z)
    (enable_file_server : bool) (file_server_path : string) : UploadConfig :=
  {| upload_path := upload_path;
     temp_path := match temp_path with
                  | Some (String a s) => String a s
                  | _ => posixpath.join upload_path "temp"
                  end;
     base_url := posixpath.rstrip_slash base_url;
     max_file_size := max_file_size;
     chunk_size := chunk_size;
     concurrent := concurrent;
     enable_file_server := enable_file_server;
     file_server_path := file_server_path |}.

(** The constructor's default arguments. *)
Definition default_config : UploadConfig :=
  UploadConfig_init "./uploads" None "http://localhost:8000" 0 (2 * 1024 * 1024) 3
                    true "/files".

Definition get_file_url (config : UploadConfig) (filename : string) : string :=
  String.append (base_url config)
    (String.append (file_server_path config) (String "/" filename)).

(** A path is kept as the arguments it is built from:
    [UploadFile filename] stands for [os.path.join(upload_path, filename)],
    [TempDir file_id] for [os.path.join(temp_path, file_id)] and
    [ChunkFile file_id i] for [os.path.join(temp_path, file_id, str(i))].
    That is what the code's paths are when the name is one path component
    ([plain_name] below).  A file id or file hash that is itself a path
    (["a/0"], [".."], the empty string) names some other place, and the
    statements about files leave such names out. *)
Inductive file_path :=
  | UploadFile (filename : string)
  | ChunkFile (file_id : string) (chunk_index : Z).

Inductive dir_path :=
  | TempDir (file_id : string).

Definition get_upload_file_path (config : UploadConfig) (filename : string) : file_path :=
  UploadFile filename.

Definition get_temp_dir_path (config : UploadConfig) (file_id : string) : dir_path :=
  TempDir file_id.

Definition get_chunk_file_path (config : UploadConfig) (file_id : string) (chunk_index : Z)
  : file_path :=
  ChunkFile file_id chunk_index.

(** ** Messages

    The texts of responses and exceptions, with the values their f-strings
    interpolate kept as arguments. *)
Inductive message :=
  | MsgUnfinishedUpload                       (* 发现未完成的上传 *)
  | MsgInstantUpload                          (* 文件已存在，秒传成功 *)
  | MsgSameHashUnfinished                     (* 发现相同哈希值的未完成上传 *)
  | MsgNotFoundCanStart                       (* 文件不存在，可以开始上传 *)
  | MsgChunkUploaded (number total : Z)       (* 分片 {chunk_index + 1}/{chunk_total} 上传成功 *)
  | MsgMerged                                 (* 文件合并成功 *)
  | MsgChunkHashMismatch (expected actual : string) (* 分片哈希验证失败: 期望 .., 实际 .. *)
  | MsgMetadataNotFound (fileId : string)     (* 未找到文件元数据: {fileId} *)
  | MsgChunksIncomplete (have total : Z)      (* 分片不完整: {have}/{total} *)
  | MsgChunkNotUploaded (i : Z)               (* 缺少分片: {i} *)
  | MsgChunkFileMissing (chunk_file_path : file_path) (* 分片文件不存在: {chunk_file_path} *)
  | MsgFileHashMismatch (expected actual : string). (* 文件哈希验证失败: 期望 .., 实际 .. *)

(** Exceptions the service raises or lets through. *)
Inductive exception :=
  | ValueError (msg : message)
  | KeyError (key : string)
  | FileNotFoundError (p : file_path).

(** ** [models.py] *)
Module VerifyRequest.
Record t := {
  fileId : string;
  fileName : string;
  fileHash : string;
  fileSize : option Z;
  chunkTotal : option Z;
  chunkSize : option Z
}.
End VerifyRequest.

Module VerifyResponse.
Record t := {
  success : bool;
  fileId : string;
  exists_ : bool;
  finish : bool;
  uploadedChunks : list Z;
  url : option string;
  message : message
}.
End VerifyResponse.

Module UploadResponse.
Record t := {
  success : bool;
  fileId : string;
  chunkIndex : Z;
  uploadedChunks : list Z;
  message : message
}.
End UploadResponse.

Module MergeRequest.
Record t := {
  fileId : string;
  fileName : string;
  fileHash : string;
  chunkTotal : Z;
  fileSize : option Z
}.
End MergeRequest.

Module MergeResponse.
Record t := {
  success : bool;
  fileId : string;
  url : string;
  message : message
}.
End MergeResponse.

(** ** [service.py]: [FileMetadata] *)
Record FileMetadata := {
  file_id : string;
  file_name : string;
  file_hash : string;
  chunk_total : Z;
  uploaded_chunks : gset Z;
  status : string
}.

Definition FileMetadata_init (file_id file_name file_hash : string) (chunk_total : Z)
  : FileMetadata :=
  {| file_id := file_id; file_name := file_name; file_hash := file_hash;
     chunk_total := chunk_total; uploaded_chunks := ∅; status := "uploading" |}.

(** [metadata.uploaded_chunks.add(i)] *)
Definition add_chunk (i : Z) (m : FileMetadata) : FileMetadata :=
  {| file_id := file_id m; file_name := file_name m; file_hash := file_hash m;
     chunk_total := chunk_total m; uploaded_chunks := {[ i ]} ∪ uploaded_chunks m;
     status := status m |}.

(** ** The file system under the two configured directories

    [upload_files] holds the files of the upload directory by name;
    [temp_dirs] maps a [file_id] to its directory under [temp_path], which
    maps a chunk index to the bytes of the chunk file.  Paths built from
    different arguments are different files, the directories hold nothing
    else, and the disk itself does not fail (a POSIX file system that
    tells names apart by case, with room, and with no limit on the length
    of a name reached).  This is the disk of the code
    for plain names and the default place of the temporary directory
    ([plain_service] below); the statements about files are made there,
    and [paths_apart] says what makes it so. *)
Record filesystem := {
  upload_files : gmap string (list byte);
  temp_dirs : gmap string (gmap Z (list byte))
}.

(** ** [service.py]: [UploadService] *)
Record UploadService := {
  config : UploadConfig;
  _file_metadata : PyDict.t FileMetadata;
  _hash_to_file : gmap string file_path;
  fs : filesystem
}.

(** [UploadService.__init__] on a given file system *)
Definition UploadService_init (config : UploadConfig) (fs : filesystem) : UploadService :=
  {| config := config; _file_metadata := PyDict.empty; _hash_to_file := ∅; fs := fs |}.

Definition set_file_metadata (d : PyDict.t FileMetadata) (self : UploadService) :=
  {| config := config self; _file_metadata := d;
     _hash_to_file := _hash_to_file self; fs := fs self |}.
Definition set_hash_to_file (h : gmap string file_path) (self : UploadService) :=
  {| config := config self; _file_metadata := _file_metadata self;
     _hash_to_file := h; fs := fs self |}.
Definition set_fs (f : filesystem) (self : UploadService) :=
  {| config := config self; _file_metadata := _file_metadata self;
     _hash_to_file := _hash_to_file self; fs := f |}.
Definition set_upload_files (u : gmap string (list byte)) (f : filesystem) :=
  {| upload_files := u; temp_dirs := temp_dirs f |}.
Definition set_temp_dirs (t : gmap string (gmap Z (list byte))) (f : filesystem) :=
  {| upload_files := upload_files f; temp_dirs := t |}.

(** A method either returns or raises; what it did to [self] and to the
    files before raising stays done. *)
Inductive result (A : Type) :=
  | Return (a : A)
  | Raise (e : exception).
Arguments Return {A} a.
Arguments Raise {A} e.

Definition M (A : Type) : Type := UploadService → result A * UploadService.

#[global] Instance M_ret : MRet M := λ A a self, (Return a, self).
#[global] Instance M_bind : MBind M := λ A B f m self,
  match m self with
  | (Return a, self') => f a self'
  | (Raise e, self') => (Raise e, self')
  end.

Definition raise {A} (e : exception) : M A := λ self, (Raise e, self).
Definition get_self : M UploadService := λ self, (Return self, self).
Definition modify (f : UploadService → UploadService) : M unit :=
  λ self, (Return tt, f self).

(** *** File operations *)

(** [open(p, 'rb').read()] *)
Definition read_file (f : filesystem) (p : file_path) : option (list byte) :=
  match p with
  | UploadFile name => upload_files f !! name
  | ChunkFile file_id i => temp_dirs f !! file_id ≫= λ dir, dir !! i
  end.

(** [os.path.exists(p)] *)
Definition path_exists (f : filesystem) (p : file_path) : bool :=
  match read_file f p with Some _ => true | None => false end.

Definition dir_exists (f : filesystem) (d : dir_path) : bool :=
  match d with
  | TempDir file_id => match temp_dirs f !! file_id with Some _ => true | None => false end
  end.

(** The file [p] with contents [content], created or replaced; a chunk file
    needs its directory. *)
Definition write_file (p : file_path) (content : list byte) (f : filesystem)
  : option filesystem :=
  match p with
  | UploadFile name => Some (set_upload_files (<[name := content]> (upload_files f)) f)
  | ChunkFile file_id i =>
      dir ← temp_dirs f !! file_id;
      Some (set_temp_dirs (<[file_id := <[i := content]> dir]> (temp_dirs f)) f)
  end.

(** [os.remove(p)] *)
Definition remove_file (p : file_path) (f : filesystem) : option filesystem :=
  match p with
  | UploadFile name =>
      _ ← upload_files f !! name;
      Some (set_upload_files (delete name (upload_files f)) f)
  | ChunkFile file_id i =>
      dir ← temp_dirs f !! file_id;
      _ ← dir !! i;
      Some (set_temp_dirs (<[file_id := delete i dir]> (temp_dirs f)) f)
  end.

(** [Path(d).mkdir(parents=True, exist_ok=True)] *)
Definition mkdir (d : dir_path) (f : filesystem) : filesystem :=
  match d with
  | TempDir file_id =>
      match temp_dirs f !! file_id with
      | Some _ => f
      | None => set_temp_dirs (<[file_id := ∅]> (temp_dirs f)) f
      end
  end.

(** [shutil.rmtree(d, ignore_errors=True)] *)
Definition rmtree (d : dir_path) (f : filesystem) : filesystem :=
  match d with
  | TempDir file_id => set_temp_dirs (delete file_id (temp_dirs f)) f
  end.

(** The same as methods: a file that is not there raises. *)
Definition fs_try (p : file_path) (op : filesystem → option filesystem) : M unit :=
  λ self, match op (fs self) with
          | Some f => (Return tt, set_fs f self)
          | None => (Raise (FileNotFoundError p), self)
          end.

Definition open_wb_write (p : file_path) (content : list byte) : M unit :=
  fs_try p (write_file p content).

Definition os_remove (p : file_path) : M unit := fs_try p (remove_file p).

Definition open_rb_read (p : file_path) : M (list byte) :=
  λ self, match read_file (fs self) p with
          | Some content => (Return content, self)
          | None => (Raise (FileNotFoundError p), self)
          end.

(** [target_file.write(content)] on a file opened for writing: the bytes
    go after those written so far. *)
Definition file_write (p : file_path) (content : list byte) : M unit :=
  written ← open_rb_read p;
  open_wb_write p (written ++ content).

(** *** [hashlib.sha256()] as an object: [update] feeds bytes, [hexdigest]
    hashes all that was fed. *)
Definition hasher := list byte.
Definition hasher_update (h : hasher) (chunk : list byte) : hasher := h ++ chunk.
Definition hasher_hexdigest (h : hasher) : string := SHA256.hexdigest h.

(** The loop [while chunk := await f.read(8192): hash_sha256.update(chunk)]
    on the bytes still to read; every pass reads at least one byte, so
    [fuel] above the number of bytes left is never used up. *)
Definition read_size : nat := Z.to_nat 8192.

Fixpoint read_and_update (fuel : nat) (rest : list byte) (h : hasher) : hasher :=
  match fuel with
  | O => h
  | S fuel' =>
      match take read_size rest with
      | [] => h
      | chunk => read_and_update fuel' (drop read_size rest) (hasher_update h chunk)
      end
  end.

(** *** The methods of [UploadService] *)

(** Python truth value of an [Optional[str]]: [None] and [""] are false. *)
Definition truthy (s : option string) : bool :=
  match s with
  | Some (String _ _) => true
  | _ => false
  end.

Definition _get_file_extension (filename : string) : string :=
  if posixpath.contains "." filename then snd (posixpath.splitext filename)
  else EmptyString.

Definition _calculate_file_hash (p : file_path) : M string :=
  content ← open_rb_read p;
  mret (hasher_hexdigest (read_and_update (S (length content)) content [])).

Definition _cleanup_temp_files (file_id : string) : M unit :=
  self ← get_self;
  let temp_dir_path := get_temp_dir_path (config self) file_id in
  if dir_exists (fs self) temp_dir_path
  then modify (λ s, set_fs (rmtree temp_dir_path (fs s)) s)
  else mret tt.

(** The body of [for i in range(chunk_total)] in [_merge_chunk_files]. *)
Fixpoint merge_chunk_files_loop (file_id : string) (target_path : file_path)
    (range : list Z) : M unit :=
  match range with
  | [] => mret tt
  | i :: range' =>
      self ← get_self;
      let chunk_file_path := get_chunk_file_path (config self) file_id i in
      if negb (path_exists (fs self) chunk_file_path)
      then raise (ValueError (MsgChunkFileMissing chunk_file_path))
      else
        content ← open_rb_read chunk_file_path;
        file_write target_path content;;
        merge_chunk_files_loop file_id target_path range'
  end.

Definition _merge_chunk_files (file_id : string) (target_path : file_path)
    (chunk_total : Z) : M unit :=
  open_wb_write target_path [];;
  merge_chunk_files_loop file_id target_path (seqZ 0 chunk_total).

Definition verify_file (request : VerifyRequest.t) : M VerifyResponse.t :=
  self ← get_self;
  match PyDict.get (VerifyRequest.fileId request) (_file_metadata self) with
  | Some metadata =>
      mret {| VerifyResponse.success := true;
              VerifyResponse.fileId := VerifyRequest.fileId request;
              VerifyResponse.exists_ := false;
              VerifyResponse.finish := false;
              VerifyResponse.uploadedChunks := elements (uploaded_chunks metadata);
              VerifyResponse.url := None;
              VerifyResponse.message := MsgUnfinishedUpload |}
  | None =>
      let file_extension := _get_file_extension (VerifyRequest.fileName request) in
      let target_filename := String.append (VerifyRequest.fileHash request) file_extension in
      let target_path := get_upload_file_path (config self) target_filename in
      if path_exists (fs self) target_path then
        let file_url := get_file_url (config self) target_filename in
        modify (λ s, set_hash_to_file
                       (<[VerifyRequest.fileHash request := target_path]> (_hash_to_file s)) s);;
        mret {| VerifyResponse.success := true;
                VerifyResponse.fileId := VerifyRequest.fileId request;
                VerifyResponse.exists_ := true;
                VerifyResponse.finish := true;
                VerifyResponse.uploadedChunks := [];
                VerifyResponse.url := Some file_url;
                VerifyResponse.message := MsgInstantUpload |}
      else
        match List.find (λ metadata,
                 String.eqb (file_hash metadata) (VerifyRequest.fileHash request)
                 && negb (String.eqb (file_id metadata) (VerifyRequest.fileId request)))
               (PyDict.values (_file_metadata self)) with
        | Some metadata =>
            mret {| VerifyResponse.success := true;
                    VerifyResponse.fileId := file_id metadata;
                    VerifyResponse.exists_ := false;
                    VerifyResponse.finish := false;
                    VerifyResponse.uploadedChunks := elements (uploaded_chunks metadata);
                    VerifyResponse.url := None;
                    VerifyResponse.message := MsgSameHashUnfinished |}
        | None =>
            mret {| VerifyResponse.success := true;
                    VerifyResponse.fileId := VerifyRequest.fileId request;
                    VerifyResponse.exists_ := false;
                    VerifyResponse.finish := false;
                    VerifyResponse.uploadedChunks := [];
                    VerifyResponse.url := None;
                    VerifyResponse.message := MsgNotFoundCanStart |}
        end
  end.

(** [metadata = self._file_metadata[file_id]] *)
Definition lookup_metadata (file_id : string) : M FileMetadata :=
  λ self, match PyDict.get file_id (_file_metadata self) with
          | Some metadata => (Return metadata, self)
          | None => (Raise (KeyError file_id), self)
          end.

(** A mutation of the [FileMetadata] object registered under [file_id];
    the object stays where it is in the [dict]. *)
Definition mutate_metadata (file_id : string) (f : FileMetadata → FileMetadata) : M unit :=
  modify (λ s, match PyDict.get file_id (_file_metadata s) with
               | Some metadata =>
                   set_file_metadata (PyDict.set file_id (f metadata) (_file_metadata s)) s
               | None => s
               end).

Definition upload_chunk (chunk : list byte) (file_id file_name : string)
    (chunk_index chunk_total : Z) (file_hash : string) (chunk_hash : option string)
  : M UploadResponse.t :=
  self ← get_self;
  (if negb (PyDict.mem file_id (_file_metadata self))
   then modify (λ s, set_file_metadata
                       (PyDict.set file_id
                          (FileMetadata_init file_id file_name file_hash chunk_total)
                          (_file_metadata s)) s)
   else mret tt);;
  _ ← lookup_metadata file_id;
  let temp_dir_path := get_temp_dir_path (config self) file_id in
  modify (λ s, set_fs (mkdir temp_dir_path (fs s)) s);;
  let chunk_file_path := get_chunk_file_path (config self) file_id chunk_index in
  let content := chunk in
  open_wb_write chunk_file_path content;;
  (if truthy chunk_hash then
     let expected := default EmptyString chunk_hash in
     let actual_hash := SHA256.hexdigest content in
     if negb (String.eqb actual_hash expected) then
       os_remove chunk_file_path;;
       raise (ValueError (MsgChunkHashMismatch expected actual_hash))
     else mret tt
   else mret tt);;
  mutate_metadata file_id (add_chunk chunk_index);;
  metadata ← lookup_metadata file_id;
  mret {| UploadResponse.success := true;
          UploadResponse.fileId := file_id;
          UploadResponse.chunkIndex := chunk_index;
          UploadResponse.uploadedChunks := elements (uploaded_chunks metadata);
          UploadResponse.message := MsgChunkUploaded (chunk_index + 1) chunk_total |}.

(** The loop [for i in range(request.chunkTotal)] over the indices recorded
    in the session. *)
Fixpoint check_all_uploaded (uploaded : gset Z) (range : list Z) : M unit :=
  match range with
  | [] => mret tt
  | i :: range' =>
      if bool_decide (i ∈ uploaded) then check_all_uploaded uploaded range'
      else raise (ValueError (MsgChunkNotUploaded i))
  end.

(** [del self._file_metadata[file_id]] *)
Definition del_metadata (file_id : string) : M unit :=
  λ self, if PyDict.mem file_id (_file_metadata self)
          then (Return tt, set_file_metadata (PyDict.del file_id (_file_metadata self)) self)
          else (Raise (KeyError file_id), self).

(** [merge_chunks] up to the line before its first [await]: the lookup of
    the session and the two completeness checks.  *)
Definition merge_chunks_checks (request : MergeRequest.t) : M unit :=
  self ← get_self;
  match PyDict.get (MergeRequest.fileId request) (_file_metadata self) with
  | None => raise (ValueError (MsgMetadataNotFound (MergeRequest.fileId request)))
  | Some metadata =>
      let n := Z.of_nat (size (uploaded_chunks metadata)) in
      if negb (n =? MergeRequest.chunkTotal request)
      then raise (ValueError (MsgChunksIncomplete n (MergeRequest.chunkTotal request)))
      else check_all_uploaded (uploaded_chunks metadata)
                              (seqZ 0 (MergeRequest.chunkTotal request))
  end.

(** [merge_chunks] from the target path on: assembly, digest check,
    clean-up and the response. *)
Definition merge_chunks_assemble (request : MergeRequest.t) : M MergeResponse.t :=
  self ← get_self;
  let file_extension := _get_file_extension (MergeRequest.fileName request) in
  let target_filename := String.append (MergeRequest.fileHash request) file_extension in
  let target_path := get_upload_file_path (config self) target_filename in
  _merge_chunk_files (MergeRequest.fileId request) target_path
                     (MergeRequest.chunkTotal request);;
  actual_hash ← _calculate_file_hash target_path;
  (if negb (String.eqb actual_hash (MergeRequest.fileHash request)) then
     os_remove target_path;;
     raise (ValueError (MsgFileHashMismatch (MergeRequest.fileHash request) actual_hash))
   else mret tt);;
  _cleanup_temp_files (MergeRequest.fileId request);;
  modify (λ s, set_hash_to_file
                 (<[MergeRequest.fileHash request := target_path]> (_hash_to_file s)) s);;
  del_metadata (MergeRequest.fileId request);;
  let file_url := get_file_url (config self) target_filename in
  mret {| MergeResponse.success := true;
          MergeResponse.fileId := MergeRequest.fileId request;
          MergeResponse.url := file_url;
          MergeResponse.message := MsgMerged |}.

Definition merge_chunks (request : MergeRequest.t) : M MergeResponse.t :=
  merge_chunks_checks request;;
  merge_chunks_assemble request.

Definition get_file_metadata (file_id : string) (self : UploadService)
  : option FileMetadata :=
  PyDict.get file_id (_file_metadata self).

Definition list_uploading_files (self : UploadService) : list FileMetadata :=
  PyDict.values (_file_metadata self).

(** ** Notions the statements use *)

(** The chunk indices recorded for [file_id]; empty when there is no session. *)
Definition received (file_id : string) (self : UploadService) : gset Z :=
  from_option uploaded_chunks ∅ (get_file_metadata file_id self).

(** One request to the service. *)
Inductive call :=
  | Verify (request : VerifyRequest.t)
  | Upload (chunk : list byte) (file_id file_name : string)
           (chunk_index chunk_total : Z) (file_hash : string) (chunk_hash : option string)
  | Merge (request : MergeRequest.t).

(** The service after a request, whether it returned or raised. *)
Definition after (c : call) (self : UploadService) : UploadService :=
  match c with
  | Verify request => snd (verify_file request self)
  | Upload chunk file_id file_name chunk_index chunk_total file_hash chunk_hash =>
      snd (upload_chunk chunk file_id file_name chunk_index chunk_total file_hash
                        chunk_hash self)
  | Merge request => snd (merge_chunks request self)
  end.

(** A client that uploads the chunks of [payloads] in the order of [steps];
    a step names the index and says whether the chunk's digest is sent
    along. *)
Definition client_upload (payloads : list (list byte)) (file_id file_name file_hash : string)
    (step : nat * bool) : M UploadResponse.t :=
  let chunk := nth (fst step) payloads [] in
  upload_chunk chunk file_id file_name (Z.of_nat (fst step)) (Z.of_nat (length payloads))
               file_hash (if snd step then Some (SHA256.hexdigest chunk) else None).

Fixpoint client_uploads (payloads : list (list byte)) (file_id file_name file_hash : string)
    (steps : list (nat * bool)) : M unit :=
  match steps with
  | [] => mret tt
  | step :: steps' =>
      client_upload payloads file_id file_name file_hash step;;
      client_uploads payloads file_id file_name file_hash steps'
  end.

Definition merge_request (file_id file_name file_hash : string) (chunk_total : Z)
  : MergeRequest.t :=
  {| MergeRequest.fileId := file_id; MergeRequest.fileName := file_name;
     MergeRequest.fileHash := file_hash; MergeRequest.chunkTotal := chunk_total;
     MergeRequest.fileSize := None |}.

Definition verify_request (file_id file_name file_hash : string) : VerifyRequest.t :=
  {| VerifyRequest.fileId := file_id; VerifyRequest.fileName := file_name;
     VerifyRequest.fileHash := file_hash; VerifyRequest.fileSize := None;
     VerifyRequest.chunkTotal := None; VerifyRequest.chunkSize := None |}.

(** [router.py]: the status the [/upload] and [/merge] handlers answer
    with when the service raises; [ValueError] is the client's fault. *)
Definition status_code (e : exception) : Z :=
  match e with
  | ValueError _ => 400
  | _ => 500
  end.

(** A computation that touches nothing but the files. *)
Definition files_only {A} (m : M A) : Prop :=
  ∀ self, config (snd (m self)) = config self ∧
          _file_metadata (snd (m self)) = _file_metadata self ∧
          _hash_to_file (snd (m self)) = _hash_to_file self.

(** Two registries with the same sessions in the same order, each with the
    same recorded indices; what the sessions were created with (file name,
    file hash, chunk count) may differ. *)
Definition same_progress (d1 d2 : PyDict.t FileMetadata) : Prop :=
  Forall2 (λ e1 e2, fst e1 = fst e2 ∧
                    uploaded_chunks (snd e1) = uploaded_chunks (snd e2)) d1 d2.

(** Two services that differ at most in what their sessions were created
    with. *)
Definition same_but_declared (self1 self2 : UploadService) : Prop :=
  config self1 = config self2 ∧
  _hash_to_file self1 = _hash_to_file self2 ∧
  fs self1 = fs self2 ∧
  same_progress (_file_metadata self1) (_file_metadata self2).

(** A computation that cannot tell such services apart. *)
Definition declaration_blind {A} (m : M A) : Prop :=
  ∀ self1 self2,
    same_but_declared self1 self2 →
    fst (m self1) = fst (m self2) ∧
    same_but_declared (snd (m self1)) (snd (m self2)).

(** ** A running example: three chunks AAA, BBB, CCC *)
Module Demo.

Definition empty_disk : filesystem := {| upload_files := ∅; temp_dirs := ∅ |}.
Definition fresh : UploadService := UploadService_init default_config empty_disk.

Definition AAA : list byte := list_byte_of_string "AAA".
Definition BBB : list byte := list_byte_of_string "BBB".
Definition CCC : list byte := list_byte_of_string "CCC".
Definition payloads : list (list byte) := [AAA; BBB; CCC].

(** [sha256(b"AAABBBCCC").hexdigest()] *)
Definition H : string :=
  "f565e5f4a898e80173e54aa68c8d35f4a3521aa29a0b60567b495ef17ecdfc4a".

(** Chunks 1, 0, 2 uploaded under ["id1"], in that order. *)
Definition received_all : UploadService :=
  snd (client_uploads payloads "id1" "a.txt" H [(1, false); (0, true); (2, false)]%nat fresh).

(** Only chunks 1 and 0. *)
Definition received_two : UploadService :=
  snd (client_uploads payloads "id1" "a.txt" H [(1, false); (0, true)]%nat fresh).

Definition merged : UploadService :=
  snd (merge_chunks (merge_request "id1" "a.txt" H 3) received_all).

(** The same three chunks under a digest that is not theirs
    ([sha256(b"abc")]), declared at upload and at merge. *)
Definition wrong_hash : string :=
  "ba7816bf8f01cfea414140de5dae2223b00361a396177a9cb410ff61f20015ad".


(** The three chunks again, each upload declaring 5 chunks, the wrong
    digest and another file name. *)
Definition declared_other : UploadService :=
  snd (upload_chunk CCC "id1" "x.bin" 2 5 wrong_hash None
    (snd (upload_chunk AAA "id1" "x.bin" 0 5 wrong_hash None
      (snd (upload_chunk BBB "id1" "x.bin" 1 5 wrong_hash None fresh))))).

(** Chunk 0 is sent again with a chunk hash that is not its digest. *)
Definition retry_rejected : UploadService :=
  snd (upload_chunk AAA "id1" "a.txt" 0 3 H (Some "00"%string) received_all).

(** After the merge, an unrelated upload starts under ["id2"]. *)
Definition other_upload : UploadService :=
  snd (upload_chunk BBB "id2" "b.bin" 0 2 wrong_hash None merged).

End Demo.

(** ** [router.py]: the handlers of [create_upload_router]

    A handler answers with a response or fails with an exception that
    leaves it: an [HTTPException] it raised, or an exception nothing
    caught. *)

(** [fastapi.UploadFile], as far as the handlers and the service read it:
    the bytes [read()] returns and the [size] attribute. *)
Module ChunkUpload.
Record t := {
  content : list byte;
  size : option Z
}.
End ChunkUpload.

(** Texts the router itself writes. *)
Inductive router_message :=
  | MsgChunkTooLarge (size max : Z)   (* 分片大小超过限制: {chunk.size} > {config.max_file_size} *)
  | MsgNoSuchFile.                    (* 文件不存在 *)

(** The [detail] of an [HTTPException]: a text, or [str(e)] of the
    exception it was made from; for an [HTTPException] that is its status
    code and detail. *)
Inductive http_detail :=
  | DetailText (msg : router_message)
  | DetailException (e : exception)
  | DetailHTTP (status_code : Z) (detail : http_detail).

(** What the body of a [try] raised. *)
Inductive raised :=
  | RaisedService (e : exception)
  | RaisedHTTP (status_code : Z) (detail : http_detail).

Inductive handler_error :=
  | HTTPException (status_code : Z) (detail : http_detail)
  | ZeroDivisionError.

Inductive outcome (A : Type) :=
  | Responded (a : A)
  | Failed (e : handler_error).
Arguments Responded {A} a.
Arguments Failed {A} e.

(** [except Exception as e: raise HTTPException(status_code=500, detail=str(e))];
    an [HTTPException] is an [Exception]. *)
Definition except_Exception (r : raised) : handler_error :=
  match r with
  | RaisedService e => HTTPException 500 (DetailException e)
  | RaisedHTTP status_code detail => HTTPException 500 (DetailHTTP status_code detail)
  end.

(** [except ValueError as e: raise HTTPException(status_code=400, detail=str(e))]
    followed by [except Exception]. *)
Definition except_ValueError_Exception (r : raised) : handler_error :=
  match r with
  | RaisedService (ValueError msg) => HTTPException 400 (DetailException (ValueError msg))
  | _ => except_Exception r
  end.

(** Python truth value of an [Optional[int]]: [None] and [0] are false. *)
Definition truthy_int (n : option Z) : bool :=
  match n with
  | Some n => negb (n =? 0)
  | None => false
  end.

Module Router.

(** [POST /verify] *)
Definition verify_file (request : VerifyRequest.t)
  : UploadService → outcome VerifyResponse.t * UploadService :=
  λ self,
    match verify_file request self with
    | (Return response, self') => (Responded response, self')
    | (Raise e, self') => (Failed (except_Exception (RaisedService e)), self')
    end.

(** [POST /upload]; the size check raises inside the [try]. *)
Definition upload_chunk (chunk : ChunkUpload.t) (fileId fileName : string)
    (chunkIndex chunkTotal : Z) (fileHash : string) (chunkHash : option string)
  : UploadService → outcome UploadResponse.t * UploadService :=
  λ self,
    if (max_file_size (config self) >? 0)
       && truthy_int (ChunkUpload.size chunk)
       && (default 0 (ChunkUpload.size chunk) >? max_file_size (config self))
    then
      (Failed (except_ValueError_Exception
                 (RaisedHTTP 400 (DetailText
                    (MsgChunkTooLarge (default 0 (ChunkUpload.size chunk))
                                      (max_file_size (config self)))))), self)
    else
      match upload_chunk (ChunkUpload.content chunk) fileId fileName chunkIndex chunkTotal
                         fileHash chunkHash self with
      | (Return response, self') => (Responded response, self')
      | (Raise e, self') => (Failed (except_ValueError_Exception (RaisedService e)), self')
      end.

(** [POST /merge] *)
Definition merge_chunks (request : MergeRequest.t)
  : UploadService → outcome MergeResponse.t * UploadService :=
  λ self,
    match merge_chunks request self with
    | (Return response, self') => (Responded response, self')
    | (Raise e, self') => (Failed (except_ValueError_Exception (RaisedService e)), self')
    end.

(** The float [count / total * 100], kept as its two integers. *)
Inductive progress :=
  | Percent (count total : Z).

(** [len(metadata.uploaded_chunks) / metadata.chunk_total * 100]: dividing
    by zero raises. *)
Definition progress_of (metadata : FileMetadata) : option progress :=
  if chunk_total metadata =? 0 then None
  else Some (Percent (Z.of_nat (size (uploaded_chunks metadata))) (chunk_total metadata)).

Record StatusResponse := {
  status_fileId : string;
  status_fileName : string;
  status_fileHash : string;
  status_chunkTotal : Z;
  status_uploadedChunks : list Z;
  status_progress : progress;
  status_status : string
}.

(** [GET /status/{file_id}]; [fid] is the [file_id] of the path. *)
Definition get_upload_status (fid : string) (self : UploadService)
  : outcome StatusResponse :=
  match get_file_metadata fid self with
  | None => Failed (HTTPException 404 (DetailText MsgNoSuchFile))
  | Some metadata =>
      match progress_of metadata with
      | None => Failed ZeroDivisionError
      | Some p =>
          Responded {| status_fileId := file_id metadata;
                       status_fileName := file_name metadata;
                       status_fileHash := file_hash metadata;
                       status_chunkTotal := chunk_total metadata;
                       status_uploadedChunks := elements (uploaded_chunks metadata);
                       status_progress := p;
                       status_status := status metadata |}
      end
  end.

Record ListEntry := {
  entry_fileId : string;
  entry_fileName : string;
  entry_fileHash : string;
  entry_chunkTotal : Z;
  entry_uploadedChunks : Z;
  entry_progress : progress;
  entry_status : string
}.

(** The list comprehension of [GET /list], session by session. *)
Fixpoint list_entries (files : list FileMetadata) : outcome (list ListEntry) :=
  match files with
  | [] => Responded []
  | metadata :: files' =>
      match progress_of metadata with
      | None => Failed ZeroDivisionError
      | Some p =>
          match list_entries files' with
          | Responded entries =>
              Responded ({| entry_fileId := file_id metadata;
                            entry_fileName := file_name metadata;
                            entry_fileHash := file_hash metadata;
                            entry_chunkTotal := chunk_total metadata;
                            entry_uploadedChunks :=
                              Z.of_nat (size (uploaded_chunks metadata));
                            entry_progress := p;
                            entry_status := status metadata |} :: entries)
          | Failed e => Failed e
          end
      end
  end.

(** [GET /list] *)
Definition list_uploading_files (self : UploadService) : outcome (list ListEntry) :=
  list_entries (list_uploading_files self).

End Router.

(** ** More notions for statements *)

(** *** Plain names

    [os.path.join] puts a file id, a file hash and an extension into a
    path as they come.  A name is plain when it is one path component: not
    empty, not [.] or [..], without [/] and without the NUL character.
    For such names the joined path is the directory's path followed by
    the name. *)
Definition plain_name (s : string) : bool :=
  negb (String.eqb s "") && negb (String.eqb s ".") && negb (String.eqb s "..")
  && negb (posixpath.contains "/" s) && negb (posixpath.contains "000" s).

(** The temporary directory is where the constructor puts it by default,
    the entry [temp] of the upload directory. *)
Definition default_layout (config : UploadConfig) : bool :=
  String.eqb (temp_path config) (posixpath.join (upload_path config) "temp").

(** The name of a file of the upload directory: plain, and not the name
    of the temporary directory. *)
Definition artifact_name (name : string) : bool :=
  plain_name name && negb (String.eqb name "temp").

(** The names on disk are plain. *)
Definition plain_fs (f : filesystem) : bool :=
  forallb artifact_name (map fst (map_to_list (upload_files f))) &&
  forallb plain_name (map fst (map_to_list (temp_dirs f))).

(** A service on which the structured paths are the paths of the code:
    default layout, plain names on disk. *)
Definition plain_service (self : UploadService) : bool :=
  default_layout (config self) && plain_fs (fs self).

(** The name [merge_chunks] and [verify_file] give the artifact. *)
Definition target_name (file_hash file_name : string) : string :=
  String.append file_hash (_get_file_extension file_name).

(** A request that writes under plain names only; [verify_file] writes
    no file. *)
Definition plain_call (c : call) : bool :=
  match c with
  | Verify request => true
  | Upload chunk file_id file_name chunk_index chunk_total file_hash chunk_hash =>
      plain_name file_id
  | Merge request =>
      plain_name (MergeRequest.fileId request) &&
      artifact_name (target_name (MergeRequest.fileHash request)
                                 (MergeRequest.fileName request))
  end.

(** A path whose names are plain. *)
Definition plain_path (p : file_path) : bool :=
  match p with
  | UploadFile name => artifact_name name
  | ChunkFile file_id i => plain_name file_id
  end.

(** [str(i)] for an [int]: its decimal digits, [-] first when negative. *)
Definition str (i : Z) : string := pretty i.

(** The strings the methods of [UploadConfig] build for the structured
    paths: [get_upload_file_path], [get_chunk_file_path] and
    [get_temp_dir_path] of [config.py]. *)
Definition os_path (config : UploadConfig) (p : file_path) : string :=
  match p with
  | UploadFile filename => posixpath.join (upload_path config) filename
  | ChunkFile file_id i =>
      posixpath.join (posixpath.join (temp_path config) file_id) (str i)
  end.

Definition os_dir_path (config : UploadConfig) (d : dir_path) : string :=
  match d with
  | TempDir file_id => posixpath.join (temp_path config) file_id
  end.

(** Different structured paths of plain names are different strings, a
    chunk file lies in the staging directory of its file id, and no file
    path is the temporary directory or a staging directory. *)
Definition paths_apart (config : UploadConfig) : Prop :=
  (∀ p q, plain_path p = true → plain_path q = true →
          os_path config p = os_path config q → p = q) ∧
  (∀ fid1 fid2, plain_name fid1 = true → plain_name fid2 = true →
                os_dir_path config (TempDir fid1) = os_dir_path config (TempDir fid2) →
                fid1 = fid2) ∧
  (∀ fid i, plain_name fid = true →
            os_path config (ChunkFile fid i) =
            String.append (os_dir_path config (TempDir fid)) (String "/" (str i))) ∧
  (∀ p fid, plain_path p = true → plain_name fid = true →
            os_path config p ≠ os_dir_path config (TempDir fid)) ∧
  (∀ p, plain_path p = true → os_path config p ≠ temp_path config).

(** A computation that leaves the names on disk plain. *)
Definition keeps_plain {A} (m : M A) : Prop :=
  ∀ self, plain_service self = true → plain_service (snd (m self)) = true.

(** What holds of the registry of a service that started empty: a session
    sits under its own file id, no id twice, and its status is the one it
    was created with. *)
Definition registry_ok (self : UploadService) : Prop :=
  NoDup (map fst (_file_metadata self)) ∧
  Forall (λ entry, file_id (snd entry) = fst entry ∧
                   status (snd entry) = "uploading"%string) (_file_metadata self).

(** Two services that differ at most in the hash index [_hash_to_file]. *)
Definition same_but_index (self1 self2 : UploadService) : Prop :=
  config self1 = config self2 ∧
  fs self1 = fs self2 ∧
  _file_metadata self1 = _file_metadata self2.

(** A computation that cannot tell such services apart. *)
Definition index_blind {A} (m : M A) : Prop :=
  ∀ self1 self2,
    same_but_index self1 self2 →
    fst (m self1) = fst (m self2) ∧
    same_but_index (snd (m self1)) (snd (m self2)).

(** A service whose hash index has an entry nothing put there. *)
Definition with_index_entry (self : UploadService) : UploadService :=
  set_hash_to_file (<["h" := UploadFile "elsewhere"]> (_hash_to_file self)) self.

(** The service after a list of requests, first to last. *)
Definition after_all (calls : list call) (self : UploadService) : UploadService :=
  fold_left (λ s c, after c s) calls self.

(** A digit of a lower-case hexadecimal number. *)
Definition is_lower_hex (c : ascii) : bool :=
  let n := N_of_ascii c in
  ((48 <=? n) && (n <=? 57) || (97 <=? n) && (n <=? 102))%N.

(** More example states. *)
Module Demo2.

(** A first upload that declares zero chunks. *)
Definition zero_total : UploadService :=
  snd (upload_chunk Demo.AAA "z" "z.bin" 0 0 Demo.H None Demo.fresh).


(** Two uploads under ["g"]: indices 0 and 5. *)
Definition gap : UploadService :=
  snd (upload_chunk Demo.BBB "g" "g.bin" 5 2 Demo.H None
    (snd (upload_chunk Demo.AAA "g" "g.bin" 0 2 Demo.H None Demo.fresh))).

(** Sessions ["w"] (another hash), ["id1"] and ["id3"] (both hash [H]),
    created in that order. *)
Definition three_sessions : UploadService :=
  snd (upload_chunk Demo.CCC "id3" "c.txt" 2 3 Demo.H None
    (snd (upload_chunk Demo.BBB "id1" "a.txt" 1 3 Demo.H None
      (snd (upload_chunk Demo.AAA "w" "w.txt" 0 1 Demo.wrong_hash None Demo.fresh))))).

(** After the merge of ["id1"], the same three chunks are uploaded under
    ["id5"] for a file said to have the digest of the merged one, with
    chunk 1 replaced by other bytes. *)
Definition second_claim : UploadService :=
  snd (client_uploads [Demo.AAA; Demo.CCC; Demo.CCC] "id5" "b.txt" Demo.H
         [(0, false); (1, false); (2, false)]%nat Demo.merged).



End Demo2.

(** * Properties *)

(** ** [hashlib.sha256] on known inputs *)

Lemma sha256_empty :
  SHA256.hexdigest [] =
  "e3b0c44298fc1c149afbf4c8996fb92427ae41e4649b934ca495991b7852b855"%string.
Proof. vm_compute. reflexivity. Qed.

Lemma sha256_abc :
  SHA256.hexdigest (list_byte_of_string "abc") =
  "ba7816bf8f01cfea414140de5dae2223b00361a396177a9cb410ff61f20015ad"%string.
Proof. vm_compute. reflexivity. Qed.

Lemma sha256_two_blocks :
  SHA256.hexdigest (repeat "A"%byte 200) =
  "70d3bf8b0b9d83a61012f35fbf460c4207063fe31b4d6178390fe3b721cc03f7"%string.
Proof. vm_compute. reflexivity. Qed.

(** ** [os.path.splitext] on known inputs *)

Lemma splitext_examples :
  map posixpath.splitext ["a.txt"; ".bashrc"; "a/b.c/d"; "x.tar.gz"; "..a"; "a."]%string =
  [("a", ".txt"); (".bashrc", ""); ("a/b.c/d", ""); ("x.tar", ".gz"); ("..a", ""); ("a", ".")]%string.
Proof. vm_compute. reflexivity. Qed.

(** ** The monad *)

Lemma bind_Return {A B} (m : M A) (f : A → M B) self a self' :
  m self = (Return a, self') → (m ≫= f) self = f a self'.
Proof. intros E. unfold mbind, M_bind. by rewrite E. Qed.

Lemma bind_Raise {A B} (m : M A) (f : A → M B) self e self' :
  m self = (Raise e, self') → (m ≫= f) self = (Raise e, self').
Proof. intros E. unfold mbind, M_bind. by rewrite E. Qed.

Lemma bind_get_self {B} (f : UploadService → M B) self :
  (get_self ≫= f) self = f self self.
Proof. reflexivity. Qed.

Lemma bind_mret {A B} (a : A) (f : A → M B) self :
  (mret a ≫= f) self = f a self.
Proof. reflexivity. Qed.

Lemma bind_modify {B} g (f : unit → M B) self :
  (modify g ≫= f) self = f tt (g self).
Proof. reflexivity. Qed.

Lemma bind_raise {A B} e (f : A → M B) self :
  (raise e ≫= f) self = (Raise e, self).
Proof. reflexivity. Qed.

(** Unfolds the monad as far as the next call that is not known. *)
Ltac mrun :=
  repeat first
    [ rewrite bind_get_self | rewrite bind_mret | rewrite bind_modify
    | rewrite bind_raise ];
  cbn beta iota.

(** ** The [dict] of sessions *)

Section PyDictFacts.
Context {V : Type}.
Implicit Types (d : PyDict.t V) (k : string) (v : V).

Lemma get_set_eq d k v : PyDict.get k (PyDict.set k v d) = Some v.
Proof.
  induction d as [|[k' v'] d IH]; simpl.
  - by rewrite String.eqb_refl.
  - destruct (String.eqb k' k) eqn:E; simpl; by rewrite E.
Qed.

Lemma get_set_ne d k k' v : k ≠ k' → PyDict.get k' (PyDict.set k v d) = PyDict.get k' d.
Proof.
  intros Hne. induction d as [|[k0 v0] d IH]; simpl.
  - destruct (String.eqb_spec k k'); [done|reflexivity].
  - destruct (String.eqb_spec k0 k) as [->|]; simpl.
    + destruct (String.eqb_spec k k'); [done|reflexivity].
    + by rewrite IH.
Qed.

Lemma get_del_eq d k : PyDict.get k (PyDict.del k d) = None.
Proof.
  induction d as [|[k' v'] d IH]; simpl; [done|].
  destruct (String.eqb k' k) eqn:E; simpl; [done|]. by rewrite E.
Qed.

Lemma get_del_ne d k k' : k ≠ k' → PyDict.get k' (PyDict.del k d) = PyDict.get k' d.
Proof.
  intros Hne. induction d as [|[k0 v0] d IH]; simpl; [done|].
  destruct (String.eqb_spec k0 k) as [->|]; simpl.
  - rewrite IH. destruct (String.eqb_spec k k'); [done|reflexivity].
  - by rewrite IH.
Qed.

(** Assigning to a key the value it has changes nothing. *)
Lemma set_same d k v : PyDict.get k d = Some v → PyDict.set k v d = d.
Proof.
  induction d as [|[k' v'] d IH]; simpl; [done|].
  destruct (String.eqb k' k) eqn:E.
  - by intros [= ->].
  - intros H. by rewrite IH.
Qed.

Lemma mem_get d k : PyDict.mem k d = bool_decide (is_Some (PyDict.get k d)).
Proof.
  unfold PyDict.mem. destruct (PyDict.get k d); symmetry.
  - apply bool_decide_eq_true. eauto.
  - apply bool_decide_eq_false. by intros [? ?].
Qed.

End PyDictFacts.

(** ** Reading a file back in blocks feeds the hash all its bytes *)

Lemma read_and_update_all fuel rest h :
  (length rest < fuel)%nat → read_and_update fuel rest h = h ++ rest.
Proof.
  revert rest h. induction fuel as [|fuel IH]; intros rest h Hlt; [lia|].
  simpl. destruct (take read_size rest) as [|b chunk] eqn:E.
  - destruct rest as [|b rest]; [by rewrite app_nil_r|].
    discriminate E.
  - rewrite <- E. rewrite IH.
    + unfold hasher_update. by rewrite <- app_assoc, take_drop.
    + rewrite length_drop. destruct rest; [discriminate E|].
      cbn [length] in *. unfold read_size. lia.
Qed.

Lemma calculate_file_hash_spec p content self :
  read_file (fs self) p = Some content →
  _calculate_file_hash p self = (Return (SHA256.hexdigest content), self).
Proof.
  intros E. unfold _calculate_file_hash.
  rewrite (bind_Return _ _ self content self); [|unfold open_rb_read; by rewrite E].
  rewrite read_and_update_all by lia. reflexivity.
Qed.

(** ** The completeness checks of [merge_chunks] *)

Lemma check_all_uploaded_ok (U : gset Z) range self :
  Forall (λ i, i ∈ U) range → check_all_uploaded U range self = (Return tt, self).
Proof.
  induction 1 as [|i range Hi _ IH]; simpl; [done|].
  by rewrite bool_decide_eq_true_2.
Qed.

Lemma check_all_uploaded_inv (U : gset Z) range self r self' :
  check_all_uploaded U range self = (r, self') →
  self' = self ∧
  ((r = Return tt ∧ Forall (λ i, i ∈ U) range) ∨
   (∃ i, i ∈ range ∧ (i ∉ U) ∧ r = Raise (ValueError (MsgChunkNotUploaded i)))).
Proof.
  induction range as [|i range IH]; simpl.
  - intros [= <- <-]. split; [done|]. left. by split.
  - case_bool_decide as Hi.
    + intros E. destruct (IH E) as [-> [[-> HF]|(j & Hj & HjU & ->)]].
      * split; [done|]. left. split; [done|]. by constructor.
      * split; [done|]. right. exists j. split; [by right|done].
    + intros [= <- <-]. split; [done|]. right. exists i. split; [by left|done].
Qed.

Lemma full_range_of_size (U : gset Z) n :
  Z.of_nat (size U) = n → Forall (λ i, i ∈ U) (seqZ 0 n) → U = list_to_set (seqZ 0 n).
Proof.
  intros Hsize Hall. symmetry. apply set_subseteq_size_eq.
  - intros i Hi. apply elem_of_list_to_set in Hi.
    by eapply Forall_forall in Hall.
  - rewrite size_list_to_set by apply NoDup_seqZ. rewrite length_seqZ. lia.
Qed.

Lemma merge_chunks_checks_readonly request self :
  snd (merge_chunks_checks request self) = self.
Proof.
  unfold merge_chunks_checks. mrun.
  destruct (PyDict.get _ _) as [metadata|]; [|done].
  destruct (negb _); [done|].
  destruct (check_all_uploaded _ _ self) as [r self'] eqn:E.
  by destruct (check_all_uploaded_inv _ _ _ _ _ E) as [-> _].
Qed.

(** The checks pass exactly on a session whose recorded indices are
    [0 .. chunkTotal-1] for the [chunkTotal] of the request. *)
Lemma merge_chunks_checks_Return request self self' :
  merge_chunks_checks request self = (Return tt, self') ↔
  self' = self ∧
  ∃ metadata,
    PyDict.get (MergeRequest.fileId request) (_file_metadata self) = Some metadata ∧
    0 ≤ MergeRequest.chunkTotal request ∧
    uploaded_chunks metadata = list_to_set (seqZ 0 (MergeRequest.chunkTotal request)).
Proof.
  unfold merge_chunks_checks. mrun. split.
  - destruct (PyDict.get _ _) as [metadata|]; [|discriminate].
    destruct (Z.eqb_spec (Z.of_nat (size (uploaded_chunks metadata)))
                (MergeRequest.chunkTotal request)) as [Hn|Hn]; simpl; [|discriminate].
    intros E. destruct (check_all_uploaded_inv _ _ _ _ _ E) as [-> [[_ HF]|(i & _ & _ & ?)]];
      [|discriminate].
    split; [done|]. exists metadata. split; [done|]. split; [lia|].
    by apply full_range_of_size.
  - intros [-> (metadata & -> & Hn & HU)].
    assert (Z.of_nat (size (uploaded_chunks metadata)) = MergeRequest.chunkTotal request) as Hs.
    { rewrite HU, size_list_to_set by apply NoDup_seqZ. rewrite length_seqZ. lia. }
    rewrite Hs, Z.eqb_refl. simpl. apply check_all_uploaded_ok.
    apply Forall_forall. intros i Hi. rewrite HU. by apply elem_of_list_to_set.
Qed.

(** ** Assembly *)

Lemma file_write_upload name written content self :
  upload_files (fs self) !! name = Some written →
  file_write (UploadFile name) content self =
  (Return tt, set_fs (set_upload_files (<[name := written ++ content]> (upload_files (fs self)))
                                       (fs self)) self).
Proof.
  intros E. unfold file_write.
  rewrite (bind_Return _ _ self written self); [done|].
  unfold open_rb_read. simpl. by rewrite E.
Qed.

Lemma merge_chunk_files_loop_all file_id name chunks : ∀ k written self,
  upload_files (fs self) !! name = Some written →
  (∀ i c, chunks !! i = Some c →
          read_file (fs self) (ChunkFile file_id (k + Z.of_nat i)) = Some c) →
  merge_chunk_files_loop file_id (UploadFile name) (seqZ k (Z.of_nat (length chunks))) self =
  (Return tt, set_fs (set_upload_files (<[name := written ++ concat chunks]> (upload_files (fs self)))
                                       (fs self)) self).
Proof.
  induction chunks as [|c chunks IH]; intros k written self Hw Hc.
  - simpl. rewrite app_nil_r. unfold mret, M_ret.
    rewrite insert_id by done. by destruct self as [? ? ? []].
  - rewrite seqZ_cons by (simpl; lia). simpl merge_chunk_files_loop. mrun.
    pose proof (Hc 0%nat c eq_refl) as H0. rewrite Z.add_0_r in H0.
    unfold get_chunk_file_path, path_exists. rewrite H0. cbn [negb].
    rewrite (bind_Return _ _ self c self); [|unfold open_rb_read; by rewrite H0].
    erewrite bind_Return; [|by apply file_write_upload].
    replace (Z.pred (Z.of_nat (S (length chunks)))) with (Z.of_nat (length chunks)) by lia.
    erewrite IH.
    + simpl. rewrite insert_insert_eq, <- app_assoc. reflexivity.
    + simpl. apply lookup_insert_eq.
    + intros i c' Hi. simpl. specialize (Hc (S i) c' Hi).
      simpl in Hc. rewrite <- Hc. f_equal. f_equal. lia.
Qed.

Lemma merge_chunk_files_all file_id name chunks self :
  (∀ i c, chunks !! i = Some c →
          read_file (fs self) (ChunkFile file_id (Z.of_nat i)) = Some c) →
  _merge_chunk_files file_id (UploadFile name) (Z.of_nat (length chunks)) self =
  (Return tt, set_fs (set_upload_files (<[name := concat chunks]> (upload_files (fs self)))
                                       (fs self)) self).
Proof.
  intros Hc. unfold _merge_chunk_files.
  erewrite bind_Return; [|reflexivity].
  erewrite merge_chunk_files_loop_all with (written := []).
  - simpl. by rewrite insert_insert_eq.
  - simpl. apply lookup_insert_eq.
  - intros i c Hi. simpl. rewrite Z.add_0_l. by apply Hc.
Qed.

Lemma set_set_eq {V} (d : PyDict.t V) k v v' :
  PyDict.set k v (PyDict.set k v' d) = PyDict.set k v d.
Proof.
  induction d as [|[k0 v0] d IH]; simpl.
  - by rewrite String.eqb_refl.
  - destruct (String.eqb k0 k) eqn:E; simpl; rewrite E; [done|]. by rewrite IH.
Qed.

(** ** [upload_chunk] *)

(** Unfolds a method into its state transformer. *)
Ltac munfold :=
  unfold mbind, M_bind, mret, M_ret, get_self, modify, raise, lookup_metadata,
    mutate_metadata, open_wb_write, os_remove, fs_try, open_rb_read, del_metadata;
  cbn beta iota.

Tactic Notation "munfold" "in" hyp(H) :=
  unfold mbind, M_bind, mret, M_ret, get_self, modify, raise, lookup_metadata,
    mutate_metadata, open_wb_write, os_remove, fs_try, open_rb_read, del_metadata in H;
  cbn beta iota in H.

(** The session an upload works on: the one registered under [file_id], or
    the one [upload_chunk] creates from its arguments. *)
Lemma upload_chunk_accepts chunk file_id file_name chunk_index chunk_total file_hash
    chunk_hash self :
  truthy chunk_hash = false ∨ chunk_hash = Some (SHA256.hexdigest chunk) →
  let metadata := default (FileMetadata_init file_id file_name file_hash chunk_total)
                          (PyDict.get file_id (_file_metadata self)) in
  let dir := default ∅ (temp_dirs (fs self) !! file_id) in
  upload_chunk chunk file_id file_name chunk_index chunk_total file_hash chunk_hash self
  = (Return {| UploadResponse.success := true;
               UploadResponse.fileId := file_id;
               UploadResponse.chunkIndex := chunk_index;
               UploadResponse.uploadedChunks :=
                 elements ({[ chunk_index ]} ∪ uploaded_chunks metadata);
               UploadResponse.message := MsgChunkUploaded (chunk_index + 1) chunk_total |},
     {| config := config self;
        _file_metadata :=
          PyDict.set file_id (add_chunk chunk_index metadata) (_file_metadata self);
        _hash_to_file := _hash_to_file self;
        fs := {| upload_files := upload_files (fs self);
                 temp_dirs := <[file_id := <[chunk_index := chunk]> dir]>
                                (temp_dirs (fs self)) |} |}).
Proof.
  intros Hh. unfold upload_chunk.
  assert (∀ (X : M unit),
            (if truthy chunk_hash
             then if negb (String.eqb (SHA256.hexdigest chunk) (default EmptyString chunk_hash))
                  then X else mret ()
             else mret ()) = mret ()) as Hcheck.
  { intros X. destruct Hh as [->| ->]; [done|]. simpl. rewrite String.eqb_refl.
    by destruct (SHA256.hexdigest chunk). }
  rewrite bind_get_self. cbn zeta. rewrite Hcheck.
  munfold. rewrite mem_get.
  destruct (PyDict.get file_id (_file_metadata self)) as [m|] eqn:Em; simpl.
  - rewrite Em. simpl.
    destruct (temp_dirs (fs self) !! file_id) as [d|] eqn:Ed; simpl.
    + rewrite Ed. simpl. rewrite Em. simpl. by rewrite get_set_eq.
    + rewrite lookup_insert_eq. simpl. rewrite Em. simpl. rewrite get_set_eq.
      by rewrite insert_insert_eq.
  - rewrite get_set_eq. simpl.
    destruct (temp_dirs (fs self) !! file_id) as [d|] eqn:Ed; simpl.
    + rewrite Ed. simpl. rewrite !get_set_eq. simpl.
      by rewrite set_set_eq, get_set_eq.
    + rewrite lookup_insert_eq. simpl. rewrite !get_set_eq. simpl.
      by rewrite set_set_eq, get_set_eq, insert_insert_eq.
Qed.

Lemma upload_chunk_rejects chunk file_id file_name chunk_index chunk_total file_hash
    chunk_hash self :
  truthy chunk_hash = true → chunk_hash ≠ Some (SHA256.hexdigest chunk) →
  let dir := default ∅ (temp_dirs (fs self) !! file_id) in
  upload_chunk chunk file_id file_name chunk_index chunk_total file_hash chunk_hash self
  = (Raise (ValueError (MsgChunkHashMismatch (default EmptyString chunk_hash)
                                             (SHA256.hexdigest chunk))),
     {| config := config self;
        _file_metadata :=
          match PyDict.get file_id (_file_metadata self) with
          | Some _ => _file_metadata self
          | None => PyDict.set file_id
                      (FileMetadata_init file_id file_name file_hash chunk_total)
                      (_file_metadata self)
          end;
        _hash_to_file := _hash_to_file self;
        fs := {| upload_files := upload_files (fs self);
                 temp_dirs := <[file_id := delete chunk_index dir]> (temp_dirs (fs self)) |} |}).
Proof.
  intros Ht Hne. unfold upload_chunk. rewrite Ht.
  destruct (String.eqb_spec (SHA256.hexdigest chunk) (default EmptyString chunk_hash))
    as [Heq|_].
  { destruct chunk_hash as [h|]; [|done]. simpl in Heq. congruence. }
  munfold. rewrite mem_get.
  destruct (PyDict.get file_id (_file_metadata self)) as [m|] eqn:Em; simpl.
  - rewrite Em. simpl.
    destruct (temp_dirs (fs self) !! file_id) as [d|] eqn:Ed; simpl.
    + rewrite Ed. simpl. rewrite !lookup_insert_eq. simpl. rewrite lookup_insert_eq. simpl.
      rewrite insert_insert_eq, delete_insert_eq. by destruct self.
    + rewrite !lookup_insert_eq. simpl. rewrite !lookup_insert_eq. simpl.
      rewrite lookup_insert_eq. simpl.
      rewrite !insert_insert_eq, delete_insert_eq. by destruct self.
  - rewrite get_set_eq. simpl.
    destruct (temp_dirs (fs self) !! file_id) as [d|] eqn:Ed; simpl.
    + rewrite Ed. simpl. rewrite !lookup_insert_eq. simpl. rewrite lookup_insert_eq. simpl.
      by rewrite insert_insert_eq, delete_insert_eq.
    + rewrite !lookup_insert_eq. simpl. rewrite !lookup_insert_eq. simpl.
      rewrite lookup_insert_eq. simpl.
      by rewrite !insert_insert_eq, delete_insert_eq.
Qed.

(** ** What a rejected chunk leaves behind *)



(** ** Merging too early *)

(** C7, as the code has it: the chunk count [merge_chunks] compares with
    is the one the merge request declares, not the one stored in the
    session.  When the session holds fewer chunk indices than the request's
    chunk count, [merge_chunks] raises the incomplete-upload [ValueError]
    (status 400) and the service, the session with its recorded indices,
    chunk count, status and place in the registry included, is exactly as
    before. *)
Theorem merge_incomplete_unchanged request self metadata :
  get_file_metadata (MergeRequest.fileId request) self = Some metadata →
  Z.of_nat (size (uploaded_chunks metadata)) < MergeRequest.chunkTotal request →
  merge_chunks request self =
  (Raise (ValueError (MsgChunksIncomplete (Z.of_nat (size (uploaded_chunks metadata)))
                                          (MergeRequest.chunkTotal request))), self).
Proof.
  unfold get_file_metadata. intros Em Hlt. unfold merge_chunks.
  apply bind_Raise. unfold merge_chunks_checks. mrun. rewrite Em.
  destruct (Z.eqb_spec (Z.of_nat (size (uploaded_chunks metadata)))
              (MergeRequest.chunkTotal request)); [lia|done].
Qed.

Lemma merge_incomplete_unchanged_witness :
  let metadata := add_chunk 0 (add_chunk 1 (FileMetadata_init "id1" "a.txt" Demo.H 3)) in
  let request := merge_request "id1" "a.txt" Demo.H 3 in
  get_file_metadata "id1" Demo.received_two = Some metadata ∧
  Z.of_nat (size (uploaded_chunks metadata)) < 3 ∧
  merge_chunks request Demo.received_two =
  (Raise (ValueError (MsgChunksIncomplete (Z.of_nat (size (uploaded_chunks metadata))) 3)),
   Demo.received_two).
Proof.
  intros metadata request.
  assert (get_file_metadata "id1" Demo.received_two = Some metadata) as Em
    by (vm_compute; reflexivity).
  assert (Z.of_nat (size (uploaded_chunks metadata)) < 3) as Hlt
    by (vm_compute; reflexivity).
  split; [exact Em|]. split; [exact Hlt|].
  exact (merge_incomplete_unchanged request Demo.received_two metadata Em Hlt).
Defined.

(** ** What the file operations leave alone *)

Lemma files_only_bind {A B} (m : M A) (f : A → M B) :
  files_only m → (∀ a, files_only (f a)) → files_only (m ≫= f).
Proof.
  intros Hm Hf self. unfold mbind, M_bind.
  specialize (Hm self). destruct (m self) as [[a|e] self1]; simpl in Hm.
  - specialize (Hf a self1). destruct Hf as (-> & -> & ->). done.
  - done.
Qed.

Lemma files_only_mret {A} (a : A) : files_only (mret a).
Proof. by intros self. Qed.

Lemma files_only_raise {A} e : files_only (@raise A e).
Proof. by intros self. Qed.

Lemma files_only_fs_try p op : files_only (fs_try p op).
Proof. intros self. unfold fs_try. by destruct (op (fs self)). Qed.

Lemma files_only_open_rb_read p : files_only (open_rb_read p).
Proof. intros self. unfold open_rb_read. by destruct (read_file (fs self) p). Qed.

Lemma files_only_file_write p content : files_only (file_write p content).
Proof.
  apply files_only_bind; [apply files_only_open_rb_read|].
  intros written. apply files_only_fs_try.
Qed.

Lemma files_only_merge_chunk_files_loop file_id target range :
  files_only (merge_chunk_files_loop file_id target range).
Proof.
  induction range as [|i range IH]; simpl; [apply files_only_mret|].
  intros self. rewrite bind_get_self.
  destruct (negb _); [done|].
  apply files_only_bind; [apply files_only_open_rb_read|].
  intros content. apply files_only_bind; [apply files_only_file_write|done].
Qed.

Lemma files_only_merge_chunk_files file_id target chunk_total :
  files_only (_merge_chunk_files file_id target chunk_total).
Proof.
  apply files_only_bind; [apply files_only_fs_try|].
  intros _. apply files_only_merge_chunk_files_loop.
Qed.

Lemma files_only_calculate_file_hash p : files_only (_calculate_file_hash p).
Proof.
  apply files_only_bind; [apply files_only_open_rb_read|].
  intros content. apply files_only_mret.
Qed.

Lemma files_only_cleanup_temp_files file_id : files_only (_cleanup_temp_files file_id).
Proof.
  intros self. unfold _cleanup_temp_files. rewrite bind_get_self.
  by destruct (dir_exists _ _).
Qed.

Lemma bind_inv {A B} (m : M A) (f : A → M B) self r self' :
  (m ≫= f) self = (r, self') →
  (∃ a self1, m self = (Return a, self1) ∧ f a self1 = (r, self')) ∨
  (∃ e, m self = (Raise e, self') ∧ r = Raise e).
Proof.
  unfold mbind, M_bind. destruct (m self) as [[a|e] self1].
  - intros E. left. by exists a, self1.
  - intros [= <- <-]. right. by exists e.
Qed.

Lemma files_only_run {A} (m : M A) self r self' :
  files_only m → m self = (r, self') →
  config self' = config self ∧ _file_metadata self' = _file_metadata self ∧
  _hash_to_file self' = _hash_to_file self.
Proof. intros Hm E. specialize (Hm self). by rewrite E in Hm. Qed.

(** ** What [merge_chunks] does to the registry and the hash index

    It raises and leaves both alone, or it returns, drops the session and
    enters the hash of the request. *)
Lemma merge_chunks_registry request self r self' :
  merge_chunks request self = (r, self') →
  config self' = config self ∧
  ((∃ e, r = Raise e ∧
         _file_metadata self' = _file_metadata self ∧
         _hash_to_file self' = _hash_to_file self) ∨
   (∃ response, r = Return response ∧
         _file_metadata self' =
           PyDict.del (MergeRequest.fileId request) (_file_metadata self) ∧
         _hash_to_file self' =
           <[MergeRequest.fileHash request :=
               UploadFile (String.append (MergeRequest.fileHash request)
                             (_get_file_extension (MergeRequest.fileName request)))]>
             (_hash_to_file self))).
Proof.
  unfold merge_chunks. intros E.
  apply bind_inv in E as [([] & self0 & Ec & E)|(e & Ec & ->)].
  2:{ pose proof (merge_chunks_checks_readonly request self) as Hr.
      rewrite Ec in Hr. simpl in Hr. subst self'.
      split; [done|]. left. by exists e. }
  apply merge_chunks_checks_Return in Ec as [-> (metadata & Em & _ & _)].
  unfold merge_chunks_assemble in E. rewrite bind_get_self in E. cbn zeta in E.
  unfold get_upload_file_path in E.
  set (target := UploadFile _) in *.
  apply bind_inv in E as [([] & self1 & E1 & E)|(e & E1 & ->)];
    apply (files_only_run _ _ _ _ (files_only_merge_chunk_files _ _ _)) in E1
      as (Hc1 & Hm1 & Hh1).
  2:{ split; [done|]. left. by exists e. }
  apply bind_inv in E as [(actual & self2 & E2 & E)|(e & E2 & ->)];
    apply (files_only_run _ _ _ _ (files_only_calculate_file_hash _)) in E2
      as (Hc2 & Hm2 & Hh2).
  2:{ split; [congruence|]. left. exists e. split; [done|]. split; congruence. }
  destruct (negb (String.eqb actual (MergeRequest.fileHash request))).
  { apply bind_inv in E as [([] & self3 & E3 & E)|(e & E3 & ->)].
    - apply bind_inv in E3 as [([] & self4 & E3 & E4)|(e & E3 & ?)]; [|done].
      apply (files_only_run _ _ _ _ (files_only_fs_try _ _)) in E3 as (Hc3 & Hm3 & Hh3).
      discriminate E4.
    - apply bind_inv in E3 as [([] & self4 & E3 & E4)|(e' & E3 & ?)];
        apply (files_only_run _ _ _ _ (files_only_fs_try _ _)) in E3 as (Hc3 & Hm3 & Hh3).
      + injection E4 as <- <-.
        split; [congruence|]. left. eexists. split; [done|]. split; congruence.
      + split; [congruence|]. left. eexists. split; [done|]. split; congruence. }
  rewrite bind_mret in E.
  apply bind_inv in E as [([] & self3 & E3 & E)|(e & E3 & ->)];
    apply (files_only_run _ _ _ _ (files_only_cleanup_temp_files _)) in E3
      as (Hc3 & Hm3 & Hh3).
  2:{ split; [congruence|]. left. exists e. split; [done|]. split; congruence. }
  rewrite bind_modify in E. unfold mbind, M_bind, del_metadata in E. simpl in E.
  rewrite mem_get, Hm3, Hm2, Hm1, Em in E. simpl in E. injection E as <- <-. simpl.
  split; [congruence|]. right. eexists. split; [done|]. split; congruence.
Qed.

(** ** [merge_chunks] on a session whose chunk files are all there *)

Section Assembled.
Variables (request : MergeRequest.t) (self : UploadService) (metadata : FileMetadata).
Variable chunks : list (list byte).

Hypothesis Hsession :
  PyDict.get (MergeRequest.fileId request) (_file_metadata self) = Some metadata.
Hypothesis Htotal : MergeRequest.chunkTotal request = Z.of_nat (length chunks).
Hypothesis Hcomplete :
  uploaded_chunks metadata = list_to_set (seqZ 0 (MergeRequest.chunkTotal request)).
Hypothesis Hstored : ∀ i c,
  chunks !! i = Some c →
  read_file (fs self) (ChunkFile (MergeRequest.fileId request) (Z.of_nat i)) = Some c.


Lemma merge_chunks_digest_differs :
  SHA256.hexdigest (concat chunks) ≠ MergeRequest.fileHash request →
  merge_chunks request self =
  (Raise (ValueError (MsgFileHashMismatch (MergeRequest.fileHash request)
                                          (SHA256.hexdigest (concat chunks)))),
   {| config := config self;
      _file_metadata := _file_metadata self;
      _hash_to_file := _hash_to_file self;
      fs := {| upload_files := delete (String.append (MergeRequest.fileHash request)
                      (_get_file_extension (MergeRequest.fileName request)))
                                (upload_files (fs self));
               temp_dirs := temp_dirs (fs self) |} |}).
Proof.
  intros Hdigest. unfold merge_chunks.
  erewrite bind_Return
    by (apply merge_chunks_checks_Return; split; [reflexivity|]; exists metadata;
        split; [done|]; split; [lia|done]).
  unfold merge_chunks_assemble. rewrite bind_get_self. cbn zeta.
  unfold get_upload_file_path. rewrite Htotal.
  erewrite bind_Return by (by apply merge_chunk_files_all).
  erewrite bind_Return
    by (apply calculate_file_hash_spec; simpl; apply lookup_insert_eq).
  destruct (String.eqb_spec (SHA256.hexdigest (concat chunks))
              (MergeRequest.fileHash request)); [done|].
  cbn [negb]. munfold. simpl. rewrite lookup_insert_eq. simpl.
  by rewrite delete_insert_eq.
Qed.

End Assembled.

(** ** A merge whose digest check fails *)

Lemma merge_chunks_Return_inv request self response self' :
  merge_chunks request self = (Return response, self') →
  let target_filename :=
    String.append (MergeRequest.fileHash request)
                  (_get_file_extension (MergeRequest.fileName request)) in
  response = {| MergeResponse.success := true;
                MergeResponse.fileId := MergeRequest.fileId request;
                MergeResponse.url := get_file_url (config self) target_filename;
                MergeResponse.message := MsgMerged |} ∧
  ∃ content, read_file (fs self') (UploadFile target_filename) = Some content ∧
             SHA256.hexdigest content = MergeRequest.fileHash request.
Proof.
  unfold merge_chunks. intros E.
  set (target_filename := String.append _ _).
  apply bind_inv in E as [([] & self0 & Ec & E)|(e & _ & ?)]; [|done].
  apply merge_chunks_checks_Return in Ec as [-> (metadata & Em & _ & _)].
  unfold merge_chunks_assemble in E. rewrite bind_get_self in E. cbn zeta in E.
  unfold get_upload_file_path in E. fold target_filename in E.
  apply bind_inv in E as [([] & self1 & E1 & E)|(e & _ & ?)]; [|done].
  apply bind_inv in E as [(actual & self2 & E2 & E)|(e & _ & ?)]; [|done].
  destruct (read_file (fs self1) (UploadFile target_filename)) as [content'|] eqn:Er.
  2:{ unfold _calculate_file_hash in E2.
      apply bind_inv in E2 as [(content & self2' & E2 & _)|(e & _ & ?)]; [|done].
      unfold open_rb_read in E2. by rewrite Er in E2. }
  rewrite (calculate_file_hash_spec _ _ _ Er) in E2. injection E2 as <- <-.
  destruct (String.eqb_spec (SHA256.hexdigest content') (MergeRequest.fileHash request))
    as [Hd|Hd]; simpl in E.
  2:{ apply bind_inv in E as [([] & self3 & E3 & E)|(e & _ & ?)]; [|done].
      apply bind_inv in E3 as [([] & self4 & E3 & E4)|(e & _ & ?)]; done. }
  unfold _cleanup_temp_files, get_temp_dir_path, dir_exists, rmtree in E.
  munfold in E.
  destruct (temp_dirs (fs self1) !! MergeRequest.fileId request); simpl in E;
    (destruct (PyDict.mem _ _); [|done]); injection E as <- <-;
    (split; [done|]); exists content'; by split.
Qed.




(** ** [verify_file] after a merge *)

Lemma verify_file_artifact request self :
  get_file_metadata (VerifyRequest.fileId request) self = None →
  path_exists (fs self)
    (UploadFile (String.append (VerifyRequest.fileHash request)
                               (_get_file_extension (VerifyRequest.fileName request)))) = true →
  verify_file request self =
  (Return {| VerifyResponse.success := true;
             VerifyResponse.fileId := VerifyRequest.fileId request;
             VerifyResponse.exists_ := true;
             VerifyResponse.finish := true;
             VerifyResponse.uploadedChunks := [];
             VerifyResponse.url :=
               Some (get_file_url (config self)
                       (String.append (VerifyRequest.fileHash request)
                          (_get_file_extension (VerifyRequest.fileName request))));
             VerifyResponse.message := MsgInstantUpload |},
   set_hash_to_file
     (<[VerifyRequest.fileHash request :=
          UploadFile (String.append (VerifyRequest.fileHash request)
                        (_get_file_extension (VerifyRequest.fileName request)))]>
        (_hash_to_file self)) self).
Proof.
  unfold get_file_metadata. intros Hnone Hfile. unfold verify_file.
  rewrite bind_get_self, Hnone. cbn zeta. unfold get_upload_file_path.
  rewrite Hfile. reflexivity.
Qed.

Lemma verify_file_session request self metadata :
  get_file_metadata (VerifyRequest.fileId request) self = Some metadata →
  verify_file request self =
  (Return {| VerifyResponse.success := true;
             VerifyResponse.fileId := VerifyRequest.fileId request;
             VerifyResponse.exists_ := false;
             VerifyResponse.finish := false;
             VerifyResponse.uploadedChunks := elements (uploaded_chunks metadata);
             VerifyResponse.url := None;
             VerifyResponse.message := MsgUnfinishedUpload |}, self).
Proof.
  unfold get_file_metadata. intros Hsome. unfold verify_file.
  by rewrite bind_get_self, Hsome.
Qed.

(** C5, as the code has it, for a merge request whose file id and
    artifact name are plain, on services with plain names on disk: once
    [merge_chunks] has returned, the artifact
    is in the upload directory under the name hash + extension, its
    digest is that hash, and the session is gone.  From then on, in any
    later state of the service that still holds the artifact, a verify
    call with that hash, a file name of the same extension and a file id
    without a session of its own returns exists and finish true with the
    URL the merge returned.  (A session under the file id of the call goes
    first: see [verify_file_session].) *)
Theorem verify_after_merge request self response self' :
  plain_service self = true →
  plain_call (Merge request) = true →
  merge_chunks request self = (Return response, self') →
  let target_filename :=
    String.append (MergeRequest.fileHash request)
                  (_get_file_extension (MergeRequest.fileName request)) in
  path_exists (fs self') (UploadFile target_filename) = true ∧
  get_file_metadata (MergeRequest.fileId request) self' = None ∧
  ∀ later vrequest,
    plain_service later = true →
    config later = config self →
    path_exists (fs later) (UploadFile target_filename) = true →
    VerifyRequest.fileHash vrequest = MergeRequest.fileHash request →
    _get_file_extension (VerifyRequest.fileName vrequest) =
      _get_file_extension (MergeRequest.fileName request) →
    get_file_metadata (VerifyRequest.fileId vrequest) later = None →
    ∃ later',
      verify_file vrequest later =
      (Return {| VerifyResponse.success := true;
                 VerifyResponse.fileId := VerifyRequest.fileId vrequest;
                 VerifyResponse.exists_ := true;
                 VerifyResponse.finish := true;
                 VerifyResponse.uploadedChunks := [];
                 VerifyResponse.url := Some (MergeResponse.url response);
                 VerifyResponse.message := MsgInstantUpload |}, later') ∧
      fs later' = fs later ∧ _file_metadata later' = _file_metadata later.
Proof.
  intros _ _ E target_filename.
  destruct (merge_chunks_Return_inv _ _ _ _ E) as (-> & content & Hfile & _).
  destruct (merge_chunks_registry _ _ _ _ E) as (_ & [(e & ? & _)|(? & _ & Hreg & _)]);
    [done|].
  fold target_filename in Hfile. split; [|split].
  - unfold path_exists. by rewrite Hfile.
  - unfold get_file_metadata. rewrite Hreg. apply get_del_eq.
  - intros later vrequest _ Hcfg Hstill Hhash Hext Hfree. eexists. split.
    + rewrite (verify_file_artifact vrequest later Hfree).
      * simpl. rewrite Hhash, Hext, Hcfg. reflexivity.
      * by rewrite Hhash, Hext.
    + done.
Qed.

Lemma verify_after_merge_witness :
  path_exists (fs Demo.merged)
    (UploadFile (String.append
                   (MergeRequest.fileHash (merge_request "id1" "a.txt" Demo.H 3))
                   (_get_file_extension
                      (MergeRequest.fileName (merge_request "id1" "a.txt" Demo.H 3)))))
  = true ∧
  get_file_metadata (MergeRequest.fileId (merge_request "id1" "a.txt" Demo.H 3))
                    Demo.merged = None ∧
  ∃ later',
    verify_file (verify_request "id9" "copy.txt" Demo.H) Demo.merged =
    (Return {| VerifyResponse.success := true;
               VerifyResponse.fileId := "id9";
               VerifyResponse.exists_ := true;
               VerifyResponse.finish := true;
               VerifyResponse.uploadedChunks := [];
               VerifyResponse.url := Some "http://localhost:8000/files/f565e5f4a898e80173e54aa68c8d35f4a3521aa29a0b60567b495ef17ecdfc4a.txt"%string;
               VerifyResponse.message := MsgInstantUpload |}, later') ∧
    fs later' = fs Demo.merged ∧ _file_metadata later' = _file_metadata Demo.merged.
Proof.
  assert (fst (merge_chunks (merge_request "id1" "a.txt" Demo.H 3) Demo.received_all) =
          Return {| MergeResponse.success := true;
                    MergeResponse.fileId := "id1";
                    MergeResponse.url := "http://localhost:8000/files/f565e5f4a898e80173e54aa68c8d35f4a3521aa29a0b60567b495ef17ecdfc4a.txt";
                    MergeResponse.message := MsgMerged |}) as Efst
    by (vm_compute; reflexivity).
  pose proof (surjective_pairing
                (merge_chunks (merge_request "id1" "a.txt" Demo.H 3) Demo.received_all))
    as E.
  rewrite Efst in E. fold Demo.merged in E.
  destruct (verify_after_merge (merge_request "id1" "a.txt" Demo.H 3) Demo.received_all
              _ _ ltac:(vm_compute; reflexivity) ltac:(vm_compute; reflexivity) E)
    as (Hfile & Hgone & Hlater).
  split; [exact Hfile|]. split; [exact Hgone|].
  apply (Hlater Demo.merged (verify_request "id9" "copy.txt" Demo.H));
    vm_compute; reflexivity.
Defined.

(** C5, counterexample: after the merge of ["id1"] under hash [H] an
    unrelated upload is in progress under ["id2"]; a verify call for the
    merged hash that names ["id2"] is answered from that session, with
    exists and finish false and no URL, although the artifact is there. *)
Lemma verify_after_merge_session_first :
  path_exists (fs Demo.other_upload)
    (UploadFile (String.append Demo.H ".txt")) = true ∧
  fst (verify_file (verify_request "id2" "a.txt" Demo.H) Demo.other_upload) =
  Return {| VerifyResponse.success := true;
            VerifyResponse.fileId := "id2";
            VerifyResponse.exists_ := false;
            VerifyResponse.finish := false;
            VerifyResponse.uploadedChunks := [0];
            VerifyResponse.url := None;
            VerifyResponse.message := MsgUnfinishedUpload |}.
Proof. split; vm_compute; reflexivity. Qed.

(** ** Chunk indices are not range-checked *)






(** ** What a session was created with stays *)

Lemma verify_file_registry request self :
  _file_metadata (snd (verify_file request self)) = _file_metadata self.
Proof.
  unfold verify_file. rewrite bind_get_self.
  destruct (PyDict.get _ _); [done|]. cbn zeta.
  destruct (path_exists _ _); [done|]. by destruct (List.find _ _).
Qed.

Lemma upload_chunk_registry chunk fid fname index total fhash chunk_hash self id metadata :
  PyDict.get id (_file_metadata self) = Some metadata →
  ∃ metadata',
    PyDict.get id (_file_metadata (snd (upload_chunk chunk fid fname index total fhash
                                          chunk_hash self)))
    = Some metadata' ∧
    file_id metadata' = file_id metadata ∧
    file_name metadata' = file_name metadata ∧
    file_hash metadata' = file_hash metadata ∧
    chunk_total metadata' = chunk_total metadata ∧
    status metadata' = status metadata.
Proof.
  intros Em.
  destruct (truthy chunk_hash) eqn:Ht;
    [destruct (decide (chunk_hash = Some (SHA256.hexdigest chunk))) as [Heq|Hne]|].
  2:{ rewrite upload_chunk_rejects by done. simpl.
      destruct (PyDict.get fid (_file_metadata self)) eqn:Ef; [by exists metadata|].
      exists metadata. rewrite get_set_ne by congruence. done. }
  all: rewrite upload_chunk_accepts by auto; simpl.
  all: destruct (decide (fid = id)) as [->|Hid];
    [rewrite get_set_eq, Em; by eexists|rewrite get_set_ne by done; by exists metadata].
Qed.




(** ** Uploading every chunk, then merging *)





(** The example of the specification: chunks AAA, BBB, CCC uploaded in
    the order 1, 0, 2 and merged. *)
Lemma merge_example :
  SHA256.hexdigest (concat Demo.payloads) = Demo.H ∧
  fst (merge_chunks (merge_request "id1" "a.txt" Demo.H 3) Demo.received_all) =
  Return {| MergeResponse.success := true;
            MergeResponse.fileId := "id1";
            MergeResponse.url := "http://localhost:8000/files/f565e5f4a898e80173e54aa68c8d35f4a3521aa29a0b60567b495ef17ecdfc4a.txt";
            MergeResponse.message := MsgMerged |} ∧
  read_file (fs Demo.merged) (UploadFile (String.append Demo.H ".txt"))
  = Some (list_byte_of_string "AAABBBCCC") ∧
  get_file_metadata "id1" Demo.merged = None ∧
  fst (verify_file (verify_request "id1" "a.txt" Demo.H) Demo.merged) =
  Return {| VerifyResponse.success := true;
            VerifyResponse.fileId := "id1";
            VerifyResponse.exists_ := true;
            VerifyResponse.finish := true;
            VerifyResponse.uploadedChunks := [];
            VerifyResponse.url := Some "http://localhost:8000/files/f565e5f4a898e80173e54aa68c8d35f4a3521aa29a0b60567b495ef17ecdfc4a.txt"%string;
            VerifyResponse.message := MsgInstantUpload |}.
Proof.
  split; [vm_compute; reflexivity|]. split; [vm_compute; reflexivity|].
  split; [vm_compute; reflexivity|]. split; vm_compute; reflexivity.
Qed.

(** ** A rejected retry of a stored chunk *)




(** All three chunks were stored; the rejected retry of chunk 0 removes
    its file, and the merge that would have succeeded stops at chunk 0. *)
Lemma rejected_retry_example :
  read_file (fs Demo.received_all) (ChunkFile "id1" 0) = Some Demo.AAA ∧
  read_file (fs Demo.retry_rejected) (ChunkFile "id1" 0) = None ∧
  elements (received "id1" Demo.retry_rejected) = [2; 1; 0] ∧
  fst (merge_chunks (merge_request "id1" "a.txt" Demo.H 3) Demo.retry_rejected) =
  Raise (ValueError (MsgChunkFileMissing (ChunkFile "id1" 0))).
Proof.
  split; [vm_compute; reflexivity|]. split; [vm_compute; reflexivity|].
  split; vm_compute; reflexivity.
Qed.

(** ** [merge_chunks] does not read what the session was created with *)

Lemma same_progress_get d1 d2 k :
  same_progress d1 d2 →
  match PyDict.get k d1, PyDict.get k d2 with
  | Some m1, Some m2 => uploaded_chunks m1 = uploaded_chunks m2
  | None, None => True
  | _, _ => False
  end.
Proof.
  induction 1 as [|[k1 m1] [k2 m2] d1 d2 [Hk Hu] _ IH]; simpl; [done|].
  simpl in Hk, Hu. subst k2. by destruct (String.eqb k1 k).
Qed.

Lemma same_progress_del d1 d2 k :
  same_progress d1 d2 → same_progress (PyDict.del k d1) (PyDict.del k d2).
Proof.
  induction 1 as [|[k1 m1] [k2 m2] d1 d2 [Hk Hu] _ IH]; simpl; [constructor|].
  simpl in Hk, Hu. subst k2. destruct (String.eqb k1 k); [done|].
  by constructor.
Qed.

Lemma blind_bind {A B} (m : M A) (f : A → M B) :
  declaration_blind m → (∀ a, declaration_blind (f a)) → declaration_blind (m ≫= f).
Proof.
  intros Hm Hf self1 self2 HR. unfold mbind, M_bind.
  destruct (Hm self1 self2 HR) as [Hr HR'].
  destruct (m self1) as [[a1|e1] s1], (m self2) as [[a2|e2] s2]; simpl in *;
    try discriminate Hr.
  - injection Hr as ->. by apply Hf.
  - by injection Hr as ->.
Qed.

Lemma blind_mret {A} (a : A) : declaration_blind (mret a).
Proof. by intros self1 self2 HR. Qed.

Lemma blind_raise {A} e : declaration_blind (@raise A e).
Proof. by intros self1 self2 HR. Qed.

Lemma blind_fs_try p op : declaration_blind (fs_try p op).
Proof.
  intros self1 self2 (Hc & Hh & Hf & Hs). unfold fs_try. rewrite Hf.
  destruct (op (fs self2)); simpl; by repeat split.
Qed.

Lemma blind_open_rb_read p : declaration_blind (open_rb_read p).
Proof.
  intros self1 self2 (Hc & Hh & Hf & Hs). unfold open_rb_read. rewrite Hf.
  destruct (read_file (fs self2) p); simpl; by repeat split.
Qed.

Lemma blind_file_write p content : declaration_blind (file_write p content).
Proof.
  apply blind_bind; [apply blind_open_rb_read|]. intros written. apply blind_fs_try.
Qed.

Lemma blind_merge_chunk_files_loop fid target range :
  declaration_blind (merge_chunk_files_loop fid target range).
Proof.
  induction range as [|i range IH]; simpl; [apply blind_mret|].
  intros self1 self2 HR. rewrite !bind_get_self. cbn zeta. unfold get_chunk_file_path.
  pose proof HR as (_ & _ & Hf & _). rewrite Hf.
  destruct (negb _); [by apply blind_raise|].
  refine (blind_bind _ _ (blind_open_rb_read _) _ self1 self2 HR).
  intros content. apply blind_bind; [apply blind_file_write|done].
Qed.

Lemma blind_merge_chunk_files fid target total :
  declaration_blind (_merge_chunk_files fid target total).
Proof.
  apply blind_bind; [apply blind_fs_try|]. intros _. apply blind_merge_chunk_files_loop.
Qed.

Lemma blind_calculate_file_hash p : declaration_blind (_calculate_file_hash p).
Proof.
  apply blind_bind; [apply blind_open_rb_read|]. intros content. apply blind_mret.
Qed.

Lemma blind_cleanup_temp_files fid : declaration_blind (_cleanup_temp_files fid).
Proof.
  intros self1 self2 HR. unfold _cleanup_temp_files. rewrite !bind_get_self. cbn zeta.
  unfold get_temp_dir_path. destruct HR as (Hc & Hh & Hf & Hs). rewrite Hf.
  destruct (dir_exists _ _); simpl; [|by repeat split].
  split; [done|]. unfold same_but_declared. simpl. by rewrite Hf.
Qed.

Lemma blind_del_metadata fid : declaration_blind (del_metadata fid).
Proof.
  intros self1 self2 (Hc & Hh & Hf & Hs). unfold del_metadata, PyDict.mem.
  pose proof (same_progress_get _ _ fid Hs) as Hg.
  destruct (PyDict.get fid (_file_metadata self1)), (PyDict.get fid (_file_metadata self2));
    try contradiction; simpl.
  - split; [done|]. repeat split; try done. by apply same_progress_del.
  - by repeat split.
Qed.

Lemma blind_check_all_uploaded U range : declaration_blind (check_all_uploaded U range).
Proof.
  induction range as [|i range IH]; simpl; [apply blind_mret|].
  destruct (bool_decide _); [done|apply blind_raise].
Qed.

Lemma blind_merge_chunks_checks request : declaration_blind (merge_chunks_checks request).
Proof.
  intros self1 self2 HR. unfold merge_chunks_checks. rewrite !bind_get_self.
  pose proof HR as (_ & _ & _ & Hs).
  pose proof (same_progress_get _ _ (MergeRequest.fileId request) Hs) as Hg.
  destruct (PyDict.get _ (_file_metadata self1)) as [m1|],
           (PyDict.get _ (_file_metadata self2)) as [m2|]; try contradiction.
  - rewrite Hg. destruct (negb _); [by apply blind_raise|].
    by apply blind_check_all_uploaded.
  - by apply blind_raise.
Qed.

Lemma blind_merge_chunks_assemble request :
  declaration_blind (merge_chunks_assemble request).
Proof.
  intros self1 self2 HR. unfold merge_chunks_assemble. rewrite !bind_get_self. cbn zeta.
  pose proof HR as (Hc & _). rewrite Hc. unfold get_upload_file_path.
  revert self1 self2 HR Hc. intros self1 self2 HR _.
  refine (blind_bind _ _ (blind_merge_chunk_files _ _ _) _ self1 self2 HR). intros _.
  apply blind_bind; [apply blind_calculate_file_hash|]. intros actual.
  apply blind_bind.
  { destruct (negb _); [|apply blind_mret].
    apply blind_bind; [apply blind_fs_try|]. intros _. apply blind_raise. }
  intros _. apply blind_bind; [apply blind_cleanup_temp_files|]. intros _.
  apply blind_bind.
  { intros s1 s2 (Hc' & Hh & Hf & Hs). split; [done|].
    unfold same_but_declared. simpl. by rewrite Hh. }
  intros _. apply blind_bind; [apply blind_del_metadata|]. intros _. apply blind_mret.
Qed.

(** C10: [merge_chunks] judges by the request alone.  Take two services
    that are the same except for what their sessions were created with
    (file name, file hash, chunk count): a merge request gets the same
    answer from both, the same response or the same exception, and leaves
    them the same except for those stored values.  So the chunk count and
    hash stored in the session have no part in whether the merge is
    accepted, in the artifact's name or in the digest check. *)
Theorem merge_ignores_declarations request self1 self2 :
  same_but_declared self1 self2 →
  fst (merge_chunks request self1) = fst (merge_chunks request self2) ∧
  same_but_declared (snd (merge_chunks request self1)) (snd (merge_chunks request self2)).
Proof.
  revert self1 self2. change (declaration_blind (merge_chunks request)).
  apply blind_bind; [apply blind_merge_chunks_checks|].
  intros _. apply blind_merge_chunks_assemble.
Qed.

Lemma merge_ignores_declarations_witness :
  fst (merge_chunks (merge_request "id1" "a.txt" Demo.H 3) Demo.received_all) =
  fst (merge_chunks (merge_request "id1" "a.txt" Demo.H 3) Demo.declared_other) ∧
  same_but_declared
    (snd (merge_chunks (merge_request "id1" "a.txt" Demo.H 3) Demo.received_all))
    (snd (merge_chunks (merge_request "id1" "a.txt" Demo.H 3) Demo.declared_other)).
Proof.
  apply (merge_ignores_declarations (merge_request "id1" "a.txt" Demo.H 3)
           Demo.received_all Demo.declared_other).
  split; [vm_compute; reflexivity|]. split; [vm_compute; reflexivity|].
  split; [vm_compute; reflexivity|].
  unfold same_progress. vm_compute. constructor; [|constructor].
  split; reflexivity.
Defined.

(** The session says 5 chunks and another hash; the merge request says 3
    and the digest of the three chunks, and is accepted.  A request that
    repeats what the session says is turned down. *)
Lemma merge_by_request_values :
  chunk_total <$> get_file_metadata "id1" Demo.declared_other = Some 5 ∧
  file_hash <$> get_file_metadata "id1" Demo.declared_other = Some Demo.wrong_hash ∧
  fst (merge_chunks (merge_request "id1" "a.txt" Demo.H 3) Demo.declared_other) =
  Return {| MergeResponse.success := true;
            MergeResponse.fileId := "id1";
            MergeResponse.url := "http://localhost:8000/files/f565e5f4a898e80173e54aa68c8d35f4a3521aa29a0b60567b495ef17ecdfc4a.txt";
            MergeResponse.message := MsgMerged |} ∧
  fst (merge_chunks (merge_request "id1" "x.bin" Demo.wrong_hash 5) Demo.declared_other) =
  Raise (ValueError (MsgChunksIncomplete 3 5)).
Proof.
  split; [vm_compute; reflexivity|]. split; [vm_compute; reflexivity|].
  split; vm_compute; reflexivity.
Qed.

(** C7, counterexample: the session ["id1"] was created for 5 chunks and
    holds 3; a merge request that declares 3 chunks is accepted and the
    session is removed. *)
Lemma merge_incomplete_session_accepted :
  chunk_total <$> get_file_metadata "id1" Demo.declared_other = Some 5 ∧
  (λ metadata, size (uploaded_chunks metadata)) <$>
    get_file_metadata "id1" Demo.declared_other = Some 3%nat ∧
  fst (merge_chunks (merge_request "id1" "a.txt" Demo.H 3) Demo.declared_other) =
  Return {| MergeResponse.success := true;
            MergeResponse.fileId := "id1";
            MergeResponse.url := "http://localhost:8000/files/f565e5f4a898e80173e54aa68c8d35f4a3521aa29a0b60567b495ef17ecdfc4a.txt";
            MergeResponse.message := MsgMerged |} ∧
  get_file_metadata "id1"
    (snd (merge_chunks (merge_request "id1" "a.txt" Demo.H 3) Demo.declared_other))
  = None.
Proof.
  split; [vm_compute; reflexivity|]. split; [vm_compute; reflexivity|].
  split; vm_compute; reflexivity.
Qed.

(** ** Two merge calls

    [merge_chunks] keeps no mark of a merge under way: the checks before
    its first [await] change nothing, so they pass again for a call that
    starts while the first is suspended; of two calls run one after the
    other the second finds no session. *)

Lemma merge_chunks_checks_again request self self' :
  merge_chunks_checks request self = (Return tt, self') →
  merge_chunks_checks request self' = (Return tt, self') ∧
  _file_metadata self' = _file_metadata self.
Proof.
  intros E. pose proof (merge_chunks_checks_readonly request self) as Hro.
  rewrite E in Hro. simpl in Hro. subst self'. done.
Qed.

Lemma merge_chunks_twice request self response self' :
  merge_chunks request self = (Return response, self') →
  merge_chunks request self' =
  (Raise (ValueError (MsgMetadataNotFound (MergeRequest.fileId request))), self').
Proof.
  intros E.
  destruct (merge_chunks_registry _ _ _ _ E) as (_ & [(e & ? & _)|(? & _ & Hreg & _)]);
    [done|].
  unfold merge_chunks. apply bind_Raise. unfold merge_chunks_checks.
  rewrite bind_get_self, Hreg, get_del_eq. reflexivity.
Qed.

(** * More properties of the service *)

(** ** How the assembly loop ends *)




Lemma Forall2_seqZ_intro {A} (P : Z → A → Prop) (l : list A) :
  (∀ i x, l !! i = Some x → P (Z.of_nat i) x) →
  Forall2 P (seqZ 0 (Z.of_nat (length l))) l.
Proof.
  intros HP. apply Forall2_same_length_lookup_2.
  - by rewrite length_seqZ, Nat2Z.id.
  - intros i z x Hz Hx. apply lookup_seqZ in Hz as [-> _]. rewrite Z.add_0_l. by apply HP.
Qed.

(** ** Every way a merge of a complete session can end *)


Lemma merge_chunks_without_session request self :
  PyDict.get (MergeRequest.fileId request) (_file_metadata self) = None →
  merge_chunks request self =
  (Raise (ValueError (MsgMetadataNotFound (MergeRequest.fileId request))), self).
Proof.
  intros Em. unfold merge_chunks. apply bind_Raise. unfold merge_chunks_checks.
  by rewrite bind_get_self, Em.
Qed.





(** ** A merge that stops at a missing chunk file *)




(** ** A session with the right number of indices, but not the right ones *)

Lemma check_all_uploaded_app (U : gset Z) l1 l2 self :
  Forall (λ i, i ∈ U) l1 →
  check_all_uploaded U (l1 ++ l2) self = check_all_uploaded U l2 self.
Proof.
  induction 1 as [|i l1 Hi _ IH]; simpl; [done|]. by rewrite bool_decide_eq_true_2.
Qed.

(** X4: when the session holds as many indices as the merge request
    declares chunks but index [i] of the range is not among them (an
    index outside the range was uploaded instead), [merge_chunks] raises
    the [ValueError] naming the least such [i], before touching any file:
    the service is unchanged. *)
Theorem merge_unrecorded_index request self metadata i :
  get_file_metadata (MergeRequest.fileId request) self = Some metadata →
  Z.of_nat (size (uploaded_chunks metadata)) = MergeRequest.chunkTotal request →
  0 ≤ i < MergeRequest.chunkTotal request →
  i ∉ uploaded_chunks metadata →
  (∀ k, 0 ≤ k < i → k ∈ uploaded_chunks metadata) →
  merge_chunks request self = (Raise (ValueError (MsgChunkNotUploaded i)), self).
Proof.
  unfold get_file_metadata. intros Em Hsize Hi Hout Hbelow.
  unfold merge_chunks. apply bind_Raise. unfold merge_chunks_checks.
  rewrite bind_get_self, Em, Hsize, Z.eqb_refl. cbn [negb].
  replace (MergeRequest.chunkTotal request) with (i + (MergeRequest.chunkTotal request - i))
    by lia.
  rewrite seqZ_app by lia. rewrite check_all_uploaded_app.
  - rewrite seqZ_cons by lia. simpl. by rewrite bool_decide_eq_false_2.
  - apply Forall_seqZ. intros k Hk. apply Hbelow. lia.
Qed.

Lemma merge_unrecorded_index_witness :
  merge_chunks (merge_request "g" "g.bin" Demo.H 2) Demo2.gap =
  (Raise (ValueError (MsgChunkNotUploaded 1)), Demo2.gap).
Proof.
  apply (merge_unrecorded_index (merge_request "g" "g.bin" Demo.H 2) Demo2.gap
           (add_chunk 5 (add_chunk 0 (FileMetadata_init "g" "g.bin" Demo.H 2))) 1).
  - vm_compute. reflexivity.
  - vm_compute. reflexivity.
  - simpl. lia.
  - vm_compute. discriminate.
  - intros k Hk. assert (k = 0) as -> by lia. vm_compute. reflexivity.
Defined.

(** X5: for a merge request whose file id and artifact name are plain, on
    a service with plain names on disk, a merge that returned cannot be
    repeated: the same request, run
    again on the resulting service, raises the metadata-not-found
    [ValueError] and changes nothing; the artifact of the first run
    stays. *)
Theorem merge_chunks_not_repeatable request self response self' :
  plain_service self = true →
  plain_call (Merge request) = true →
  merge_chunks request self = (Return response, self') →
  merge_chunks request self' =
  (Raise (ValueError (MsgMetadataNotFound (MergeRequest.fileId request))), self') ∧
  path_exists (fs self')
    (UploadFile (String.append (MergeRequest.fileHash request)
                   (_get_file_extension (MergeRequest.fileName request)))) = true.
Proof.
  intros _ _ E. split; [by eapply merge_chunks_twice|].
  destruct (merge_chunks_Return_inv _ _ _ _ E) as (_ & content & Hfile & _).
  unfold path_exists. by rewrite Hfile.
Qed.

Lemma merge_chunks_not_repeatable_witness :
  merge_chunks (merge_request "id1" "a.txt" Demo.H 3) Demo.merged =
  (Raise (ValueError (MsgMetadataNotFound
            (MergeRequest.fileId (merge_request "id1" "a.txt" Demo.H 3)))), Demo.merged) ∧
  path_exists (fs Demo.merged)
    (UploadFile (String.append
                   (MergeRequest.fileHash (merge_request "id1" "a.txt" Demo.H 3))
                   (_get_file_extension
                      (MergeRequest.fileName (merge_request "id1" "a.txt" Demo.H 3)))))
  = true.
Proof.
  assert (fst (merge_chunks (merge_request "id1" "a.txt" Demo.H 3) Demo.received_all) =
          Return {| MergeResponse.success := true;
                    MergeResponse.fileId := "id1";
                    MergeResponse.url :=
                      "http://localhost:8000/files/f565e5f4a898e80173e54aa68c8d35f4a3521aa29a0b60567b495ef17ecdfc4a.txt";
                    MergeResponse.message := MsgMerged |}) as Efst
    by (vm_compute; reflexivity).
  pose proof (surjective_pairing
                (merge_chunks (merge_request "id1" "a.txt" Demo.H 3) Demo.received_all))
    as E.
  rewrite Efst in E. fold Demo.merged in E.
  exact (merge_chunks_not_repeatable (merge_request "id1" "a.txt" Demo.H 3)
           Demo.received_all _ _ eq_refl eq_refl E).
Defined.

(** ** Uploading the same chunk again, and chunks in another order *)


Lemma add_chunk_swap i j m :
  add_chunk j (add_chunk i m) = add_chunk i (add_chunk j m).
Proof.
  unfold add_chunk. simpl. f_equal.
  by rewrite !(assoc_L (∪)), (comm_L (∪) {[ j ]}).
Qed.


(** X7: two accepted uploads of different indices for the same file id,
    declaring the same file name, chunk count and file hash, commute: in
    either order the service ends in the same state. *)
Theorem upload_chunk_commute chunk1 chunk2 fid fname i j total fhash hash1 hash2 self :
  i ≠ j →
  truthy hash1 = false ∨ hash1 = Some (SHA256.hexdigest chunk1) →
  truthy hash2 = false ∨ hash2 = Some (SHA256.hexdigest chunk2) →
  snd (upload_chunk chunk2 fid fname j total fhash hash2
         (snd (upload_chunk chunk1 fid fname i total fhash hash1 self)))
  = snd (upload_chunk chunk1 fid fname i total fhash hash1
           (snd (upload_chunk chunk2 fid fname j total fhash hash2 self))).
Proof.
  intros Hij H1 H2.
  rewrite (upload_chunk_accepts chunk1 fid fname i total fhash hash1 self) by done.
  rewrite (upload_chunk_accepts chunk2 fid fname j total fhash hash2 self) by done.
  rewrite !upload_chunk_accepts by done. simpl.
  rewrite !get_set_eq, !lookup_insert_eq, !set_set_eq, !insert_insert_eq. simpl.
  rewrite add_chunk_swap.
  by rewrite (insert_insert_ne (default ∅ (temp_dirs (fs self) !! fid)) j i) by done.
Qed.

Lemma upload_chunk_commute_witness :
  snd (upload_chunk Demo.BBB "id1" "a.txt" 1 3 Demo.H None
         (snd (upload_chunk Demo.AAA "id1" "a.txt" 0 3 Demo.H
                 (Some (SHA256.hexdigest Demo.AAA)) Demo.fresh)))
  = snd (upload_chunk Demo.AAA "id1" "a.txt" 0 3 Demo.H (Some (SHA256.hexdigest Demo.AAA))
           (snd (upload_chunk Demo.BBB "id1" "a.txt" 1 3 Demo.H None Demo.fresh))).
Proof.
  apply (upload_chunk_commute Demo.AAA Demo.BBB "id1" "a.txt" 0 1 3 Demo.H
           (Some (SHA256.hexdigest Demo.AAA)) None Demo.fresh).
  - discriminate.
  - right. reflexivity.
  - left. reflexivity.
Defined.

(** ** What an upload leaves alone *)

(** X8: on a service with plain names on disk and for a plain file id,
    whether it returns or raises, [upload_chunk] changes nothing but
    the session and the staging directory of its own file id, and there
    no chunk file but the one of its index: the configuration, the hash
    index, the upload directory, every other session and every other
    staging directory are as before. *)
Theorem upload_chunk_frame chunk fid fname index total fhash chunk_hash self :
  plain_service self = true →
  plain_name fid = true →
  config (snd (upload_chunk chunk fid fname index total fhash chunk_hash self))
  = config self ∧
  _hash_to_file (snd (upload_chunk chunk fid fname index total fhash chunk_hash self))
  = _hash_to_file self ∧
  upload_files (fs (snd (upload_chunk chunk fid fname index total fhash chunk_hash self)))
  = upload_files (fs self) ∧
  (∀ id, id ≠ fid →
     get_file_metadata id
       (snd (upload_chunk chunk fid fname index total fhash chunk_hash self))
     = get_file_metadata id self ∧
     temp_dirs (fs (snd (upload_chunk chunk fid fname index total fhash chunk_hash self)))
       !! id = temp_dirs (fs self) !! id) ∧
  (∀ k, k ≠ index →
     read_file (fs (snd (upload_chunk chunk fid fname index total fhash chunk_hash self)))
               (ChunkFile fid k)
     = read_file (fs self) (ChunkFile fid k)).
Proof.
  intros _ _. unfold get_file_metadata.
  destruct (truthy chunk_hash) eqn:Ht;
    [destruct (decide (chunk_hash = Some (SHA256.hexdigest chunk))) as [Heq|Hne]|].
  2:{ rewrite upload_chunk_rejects by done. simpl.
      split; [done|]. split; [done|]. split; [done|]. split.
      - intros id Hid. rewrite lookup_insert_ne by done. split; [|done].
        destruct (PyDict.get fid (_file_metadata self)); [done|].
        by rewrite get_set_ne.
      - intros k Hk. rewrite lookup_insert_eq. simpl. rewrite lookup_delete_ne by done.
        by destruct (temp_dirs (fs self) !! fid). }
  all: rewrite upload_chunk_accepts by auto; simpl.
  all: split; [done|]; split; [done|]; split; [done|]; split.
  all: try (intros id Hid; rewrite lookup_insert_ne by done; split; [|done];
            by rewrite get_set_ne).
  all: intros k Hk; rewrite lookup_insert_eq; simpl; rewrite lookup_insert_ne by done;
    by destruct (temp_dirs (fs self) !! fid).
Qed.

Lemma upload_chunk_frame_witness :
  config (snd (upload_chunk Demo.CCC "id1" "a.txt" 2 3 Demo.H None Demo.received_two))
  = config Demo.received_two ∧
  _hash_to_file (snd (upload_chunk Demo.CCC "id1" "a.txt" 2 3 Demo.H None Demo.received_two))
  = _hash_to_file Demo.received_two ∧
  upload_files
    (fs (snd (upload_chunk Demo.CCC "id1" "a.txt" 2 3 Demo.H None Demo.received_two)))
  = upload_files (fs Demo.received_two) ∧
  (∀ id, id ≠ "id1"%string →
     get_file_metadata id
       (snd (upload_chunk Demo.CCC "id1" "a.txt" 2 3 Demo.H None Demo.received_two))
     = get_file_metadata id Demo.received_two ∧
     temp_dirs
       (fs (snd (upload_chunk Demo.CCC "id1" "a.txt" 2 3 Demo.H None Demo.received_two)))
       !! id = temp_dirs (fs Demo.received_two) !! id) ∧
  (∀ k, k ≠ 2 →
     read_file
       (fs (snd (upload_chunk Demo.CCC "id1" "a.txt" 2 3 Demo.H None Demo.received_two)))
       (ChunkFile "id1" k)
     = read_file (fs Demo.received_two) (ChunkFile "id1" k)).
Proof.
  apply (upload_chunk_frame Demo.CCC "id1" "a.txt" 2 3 Demo.H None Demo.received_two).
  - vm_compute. reflexivity.
  - vm_compute. reflexivity.
Defined.

(** ** [verify_file] *)

(** X9: on a service with plain names on disk and for a plain artifact
    name, [verify_file] never raises and never touches the sessions, the
    files or the configuration; in particular it creates no session.  The
    one thing it may write is the hash index, and only when it answers
    that the file exists: then the hash of the request is entered with the
    path hash + extension, a file that is on disk. *)
Theorem verify_file_reads_only request self :
  plain_service self = true →
  artifact_name (target_name (VerifyRequest.fileHash request)
                             (VerifyRequest.fileName request)) = true →
  ∃ response,
    fst (verify_file request self) = Return response ∧
    config (snd (verify_file request self)) = config self ∧
    _file_metadata (snd (verify_file request self)) = _file_metadata self ∧
    fs (snd (verify_file request self)) = fs self ∧
    VerifyResponse.finish response = VerifyResponse.exists_ response ∧
    if VerifyResponse.exists_ response
    then path_exists (fs self)
           (UploadFile (String.append (VerifyRequest.fileHash request)
                          (_get_file_extension (VerifyRequest.fileName request)))) = true ∧
         _hash_to_file (snd (verify_file request self)) =
         <[VerifyRequest.fileHash request :=
             UploadFile (String.append (VerifyRequest.fileHash request)
                           (_get_file_extension (VerifyRequest.fileName request)))]>
           (_hash_to_file self)
    else snd (verify_file request self) = self.
Proof.
  intros _ _. unfold verify_file. rewrite bind_get_self.
  destruct (PyDict.get _ _); [by eexists|]. cbn zeta. unfold get_upload_file_path.
  destruct (path_exists _ _) eqn:Hfile; [by eexists|].
  destruct (List.find _ _); by eexists.
Qed.

Lemma verify_file_reads_only_witness :
  ∃ response,
    fst (verify_file (verify_request "id9" "copy.txt" Demo.H) Demo.merged)
    = Return response ∧
    config (snd (verify_file (verify_request "id9" "copy.txt" Demo.H) Demo.merged))
    = config Demo.merged ∧
    _file_metadata (snd (verify_file (verify_request "id9" "copy.txt" Demo.H) Demo.merged))
    = _file_metadata Demo.merged ∧
    fs (snd (verify_file (verify_request "id9" "copy.txt" Demo.H) Demo.merged))
    = fs Demo.merged ∧
    VerifyResponse.finish response = VerifyResponse.exists_ response ∧
    if VerifyResponse.exists_ response
    then path_exists (fs Demo.merged)
           (UploadFile
              (String.append
                 (VerifyRequest.fileHash (verify_request "id9" "copy.txt" Demo.H))
                 (_get_file_extension
                    (VerifyRequest.fileName (verify_request "id9" "copy.txt" Demo.H)))))
         = true ∧
         _hash_to_file (snd (verify_file (verify_request "id9" "copy.txt" Demo.H)
                                         Demo.merged)) =
         <[VerifyRequest.fileHash (verify_request "id9" "copy.txt" Demo.H) :=
             UploadFile
               (String.append
                  (VerifyRequest.fileHash (verify_request "id9" "copy.txt" Demo.H))
                  (_get_file_extension
                     (VerifyRequest.fileName (verify_request "id9" "copy.txt" Demo.H))))]>
           (_hash_to_file Demo.merged)
    else snd (verify_file (verify_request "id9" "copy.txt" Demo.H) Demo.merged)
         = Demo.merged.
Proof.
  apply (verify_file_reads_only (verify_request "id9" "copy.txt" Demo.H) Demo.merged).
  - vm_compute. reflexivity.
  - vm_compute. reflexivity.
Defined.

Lemma find_first {A} (f : A → bool) (l1 : list A) x l2 :
  Forall (λ y, f y = false) l1 → f x = true → List.find f (l1 ++ x :: l2) = Some x.
Proof.
  induction 1 as [|y l1 Hy _ IH]; intros Hx; simpl.
  - by rewrite Hx.
  - rewrite Hy. by apply IH.
Qed.

(** X10: resuming by hash, on a service with plain names on disk and for
    a plain artifact name.  When the file id of the request has no
    session and no artifact hash + extension is on disk, [verify_file]
    answers from the first session, in the order the sessions were
    created, whose file hash is the hash of the request: it returns that
    session's file id and recorded chunk indices, with exists and finish
    false, and changes nothing. *)
Theorem verify_file_resumes_by_hash request self before metadata later :
  plain_service self = true →
  artifact_name (target_name (VerifyRequest.fileHash request)
                             (VerifyRequest.fileName request)) = true →
  get_file_metadata (VerifyRequest.fileId request) self = None →
  path_exists (fs self)
    (UploadFile (String.append (VerifyRequest.fileHash request)
                   (_get_file_extension (VerifyRequest.fileName request)))) = false →
  list_uploading_files self = before ++ metadata :: later →
  file_hash metadata = VerifyRequest.fileHash request →
  file_id metadata ≠ VerifyRequest.fileId request →
  Forall (λ m, file_hash m ≠ VerifyRequest.fileHash request ∨
               file_id m = VerifyRequest.fileId request) before →
  verify_file request self =
  (Return {| VerifyResponse.success := true;
             VerifyResponse.fileId := file_id metadata;
             VerifyResponse.exists_ := false;
             VerifyResponse.finish := false;
             VerifyResponse.uploadedChunks := elements (uploaded_chunks metadata);
             VerifyResponse.url := None;
             VerifyResponse.message := MsgSameHashUnfinished |}, self).
Proof.
  unfold get_file_metadata, list_uploading_files.
  intros _ _ Hfree Hfile Hlist Hhash Hid Hbefore.
  unfold verify_file. rewrite bind_get_self, Hfree. cbn zeta.
  unfold get_upload_file_path. rewrite Hfile, Hlist.
  rewrite find_first; [done| |].
  - eapply Forall_impl; [exact Hbefore|]. intros m [Hm|Hm]; simpl.
    + destruct (String.eqb_spec (file_hash m) (VerifyRequest.fileHash request)); done.
    + rewrite Hm, String.eqb_refl. simpl. apply andb_false_r.
  - simpl. rewrite Hhash, String.eqb_refl.
    by destruct (String.eqb_spec (file_id metadata) (VerifyRequest.fileId request)).
Qed.

Lemma verify_file_resumes_by_hash_witness :
  verify_file (verify_request "id9" "a.txt" Demo.H) Demo2.three_sessions =
  (Return {| VerifyResponse.success := true;
             VerifyResponse.fileId :=
               file_id (add_chunk 1 (FileMetadata_init "id1" "a.txt" Demo.H 3));
             VerifyResponse.exists_ := false;
             VerifyResponse.finish := false;
             VerifyResponse.uploadedChunks :=
               elements (uploaded_chunks
                           (add_chunk 1 (FileMetadata_init "id1" "a.txt" Demo.H 3)));
             VerifyResponse.url := None;
             VerifyResponse.message := MsgSameHashUnfinished |}, Demo2.three_sessions).
Proof.
  apply (verify_file_resumes_by_hash (verify_request "id9" "a.txt" Demo.H)
           Demo2.three_sessions
           [add_chunk 0 (FileMetadata_init "w" "w.txt" Demo.wrong_hash 1)]
           (add_chunk 1 (FileMetadata_init "id1" "a.txt" Demo.H 3))
           [add_chunk 2 (FileMetadata_init "id3" "c.txt" Demo.H 3)]).
  - vm_compute. reflexivity.
  - vm_compute. reflexivity.
  - vm_compute. reflexivity.
  - vm_compute. reflexivity.
  - vm_compute. reflexivity.
  - reflexivity.
  - discriminate.
  - constructor; [|constructor]. left. discriminate.
Defined.

(** ** The registry of a running service *)

Lemma get_None_keys {V} (d : PyDict.t V) k :
  PyDict.get k d = None → k ∉ map fst d.
Proof.
  induction d as [|[k' v'] d IH]; simpl; [intros _; apply not_elem_of_nil|].
  destruct (String.eqb_spec k' k) as [->|Hne]; [done|].
  intros Hg. apply not_elem_of_cons. split; [congruence|by apply IH].
Qed.

Lemma get_Some_elem {V} (d : PyDict.t V) k v :
  PyDict.get k d = Some v → (k, v) ∈ d.
Proof.
  induction d as [|[k' v'] d IH]; simpl; [done|].
  destruct (String.eqb_spec k' k) as [->|Hne].
  - intros [= ->]. by left.
  - intros Hg. right. by apply IH.
Qed.

Lemma set_keys_NoDup {V} (d : PyDict.t V) k v :
  NoDup (map fst d) → NoDup (map fst (PyDict.set k v d)).
Proof.
  induction d as [|[k' v'] d IH]; simpl.
  - intros _. apply NoDup_singleton.
  - intros Hnd. apply NoDup_cons in Hnd as [Hk' Hnd].
    destruct (String.eqb_spec k' k) as [->|Hne]; simpl.
    + by apply NoDup_cons.
    + apply NoDup_cons. split; [|by apply IH].
      clear IH Hnd. induction d as [|[k0 v0] d IH]; simpl in *.
      * apply not_elem_of_cons. split; [done|apply not_elem_of_nil].
      * apply not_elem_of_cons in Hk' as [Hk0 Hk'].
        destruct (String.eqb k0 k); simpl; apply not_elem_of_cons; split; auto.
Qed.

Lemma set_Forall {V} (P : string * V → Prop) (d : PyDict.t V) k v :
  Forall P d → P (k, v) → Forall P (PyDict.set k v d).
Proof.
  intros Hd Hkv. induction Hd as [|[k' v'] d Hk' Hd IH]; simpl.
  - by constructor.
  - destruct (String.eqb_spec k' k) as [->|Hne]; by constructor.
Qed.

Lemma del_keys_NoDup {V} (d : PyDict.t V) k :
  NoDup (map fst d) → NoDup (map fst (PyDict.del k d)).
Proof.
  induction d as [|[k' v'] d IH]; simpl; [done|].
  intros Hnd. apply NoDup_cons in Hnd as [Hk' Hnd].
  destruct (String.eqb k' k); simpl; [by apply IH|].
  apply NoDup_cons. split; [|by apply IH].
  clear IH Hnd. induction d as [|[k0 v0] d IH]; simpl in *; [done|].
  apply not_elem_of_cons in Hk' as [Hk0 Hk'].
  destruct (String.eqb k0 k); simpl; [auto|].
  apply not_elem_of_cons. auto.
Qed.

Lemma del_Forall {V} (P : string * V → Prop) (d : PyDict.t V) k :
  Forall P d → Forall P (PyDict.del k d).
Proof.
  induction 1 as [|[k' v'] d Hk' Hd IH]; simpl; [constructor|].
  destruct (String.eqb k' k); [done|by constructor].
Qed.

Lemma registry_ok_step c self : registry_ok self → registry_ok (after c self).
Proof.
  intros [Hnd Hall].
  destruct c as [request|chunk fid fname index total fhash chunk_hash|request]; simpl.
  - unfold registry_ok. by rewrite verify_file_registry.
  - assert (∀ m, PyDict.get fid (_file_metadata self) = Some m →
                 file_id m = fid ∧ status m = "uploading"%string) as Hown.
    { intros m Hm. apply get_Some_elem in Hm.
      eapply Forall_forall in Hall; [|exact Hm]. exact Hall. }
    destruct (truthy chunk_hash) eqn:Ht;
      [destruct (decide (chunk_hash = Some (SHA256.hexdigest chunk))) as [Heq|Hne]|].
    2:{ rewrite upload_chunk_rejects by done. unfold registry_ok. simpl.
        destruct (PyDict.get fid (_file_metadata self)); [done|].
        split; [by apply set_keys_NoDup|]. by apply set_Forall. }
    all: rewrite upload_chunk_accepts by auto; unfold registry_ok; simpl.
    all: split; [by apply set_keys_NoDup|]; apply set_Forall; [done|]; simpl.
    all: destruct (PyDict.get fid (_file_metadata self)) as [m|]; simpl; [|done].
    all: by apply Hown.
  - destruct (merge_chunks request self) as [r self'] eqn:E. simpl.
    destruct (merge_chunks_registry _ _ _ _ E) as (_ & [(e & _ & Hreg & _)|(? & _ & Hreg & _)]);
      unfold registry_ok; rewrite Hreg; [done|].
    split; [by apply del_keys_NoDup|by apply del_Forall].
Qed.

(** X11: in every state a service reaches from its start, whatever
    requests it gets and however they end, each session is registered
    under its own [file_id], no file id has two sessions, and the status
    of every session is ["uploading"]: no request writes another
    status. *)
Theorem registry_ok_always cfg disk calls :
  registry_ok (after_all calls (UploadService_init cfg disk)).
Proof.
  unfold after_all.
  assert (registry_ok (UploadService_init cfg disk)) as Hinit.
  { split; simpl; constructor. }
  revert Hinit. generalize (UploadService_init cfg disk).
  induction calls as [|c calls IH]; intros self Hok; simpl; [done|].
  apply IH. by apply registry_ok_step.
Qed.

Lemma upload_chunk_other_sessions chunk fid fname index total fhash chunk_hash self id :
  fid ≠ id →
  get_file_metadata id (snd (upload_chunk chunk fid fname index total fhash chunk_hash self))
  = get_file_metadata id self.
Proof.
  intros Hne. unfold get_file_metadata.
  destruct (truthy chunk_hash) eqn:Ht;
    [destruct (decide (chunk_hash = Some (SHA256.hexdigest chunk))) as [Heq|Hneq]|].
  2:{ rewrite upload_chunk_rejects by done. simpl.
      destruct (PyDict.get fid (_file_metadata self)); [done|]. by rewrite get_set_ne. }
  all: rewrite upload_chunk_accepts by auto; simpl; by rewrite get_set_ne.
Qed.

(** X12: sessions come and go in one way each.  A file id that had no
    session has one after a request only if the request is an upload for
    that id; a file id that had a session has none after a request only
    if the request is a merge for that id that returned. *)
Theorem session_lifecycle c self id :
  (get_file_metadata id self = None →
   is_Some (get_file_metadata id (after c self)) →
   ∃ chunk fname index total fhash chunk_hash,
     c = Upload chunk id fname index total fhash chunk_hash) ∧
  (is_Some (get_file_metadata id self) →
   get_file_metadata id (after c self) = None →
   ∃ request response,
     c = Merge request ∧ MergeRequest.fileId request = id ∧
     fst (merge_chunks request self) = Return response).
Proof.
  unfold get_file_metadata.
  destruct c as [request|chunk fid fname index total fhash chunk_hash|request]; simpl.
  - rewrite verify_file_registry. split.
    + intros -> [? ?]. done.
    + intros [? ->]. done.
  - split.
    + intros Hnone Hsome. destruct (decide (fid = id)) as [->|Hne]; [by eexists _, _, _, _, _, _|].
      pose proof (upload_chunk_other_sessions chunk fid fname index total fhash
                    chunk_hash self id Hne) as Hsame.
      unfold get_file_metadata in Hsame. rewrite Hsame, Hnone in Hsome.
      by destruct Hsome.
    + intros [m Hm] Hnone.
      destruct (upload_chunk_registry chunk fid fname index total fhash chunk_hash
                  self id m Hm) as (m' & Hm' & _).
      congruence.
  - destruct (merge_chunks request self) as [r self'] eqn:E. simpl.
    destruct (merge_chunks_registry _ _ _ _ E)
      as (_ & [(e & _ & Hreg & _)|(response & -> & Hreg & _)]); rewrite Hreg.
    + split; [intros -> [? ?]; done|intros [? ->]; done].
    + split.
      * intros Hnone [m Hm]. destruct (decide (MergeRequest.fileId request = id)) as [<-|Hne].
        -- by rewrite get_del_eq in Hm.
        -- rewrite get_del_ne in Hm by done. congruence.
      * intros [m Hm] Hnone. exists request, response. split; [done|].
        split; [|by rewrite E].
        destruct (decide (MergeRequest.fileId request = id)) as [|Hne]; [done|].
        rewrite get_del_ne in Hnone by done. congruence.
Qed.

(** X13: the recorded chunk indices of a session only grow: after any
    request, the session either holds every index it held before or is
    no longer registered. *)
Theorem received_monotone c self id :
  received id self ⊆ received id (after c self) ∨
  get_file_metadata id (after c self) = None.
Proof.
  unfold received, get_file_metadata.
  destruct c as [request|chunk fid fname index total fhash chunk_hash|request]; simpl.
  - rewrite verify_file_registry. by left.
  - left.
    destruct (truthy chunk_hash) eqn:Ht;
      [destruct (decide (chunk_hash = Some (SHA256.hexdigest chunk))) as [Heq|Hne]|].
    2:{ rewrite upload_chunk_rejects by done. simpl.
        destruct (PyDict.get fid (_file_metadata self)) eqn:Em; [done|].
        destruct (decide (fid = id)) as [<-|Hid].
        - by rewrite get_set_eq, Em.
        - by rewrite get_set_ne. }
    all: rewrite upload_chunk_accepts by auto; simpl.
    all: destruct (decide (fid = id)) as [<-|Hid]; [|by rewrite get_set_ne].
    all: rewrite get_set_eq; simpl.
    all: destruct (PyDict.get fid (_file_metadata self)); simpl;
      [apply union_subseteq_r|apply empty_subseteq].
  - destruct (merge_chunks request self) as [r self'] eqn:E. simpl.
    destruct (merge_chunks_registry _ _ _ _ E)
      as (_ & [(e & _ & Hreg & _)|(response & _ & Hreg & _)]); rewrite Hreg.
    + by left.
    + destruct (decide (MergeRequest.fileId request = id)) as [<-|Hne].
      * right. apply get_del_eq.
      * left. by rewrite get_del_ne.
Qed.

(** ** The handlers of the router *)



Lemma list_entries_spec files :
  (∃ entries, Router.list_entries files = Responded entries ∧
              length entries = length files ∧
              Forall (λ metadata, chunk_total metadata ≠ 0) files) ∨
  (Router.list_entries files = Failed ZeroDivisionError ∧
   Exists (λ metadata, chunk_total metadata = 0) files).
Proof.
  induction files as [|metadata files IH]; simpl.
  - left. by exists [].
  - unfold Router.progress_of.
    destruct (Z.eqb_spec (chunk_total metadata) 0) as [Hz|Hz].
    + right. split; [done|]. by left.
    + destruct IH as [(entries & -> & Hlen & Hall)|[-> Hex]].
      * left. eexists. split; [done|]. split; [simpl; by rewrite Hlen|by constructor].
      * right. split; [done|]. by right.
Qed.

(** X15: [GET /list] answers with one entry per session when every
    session has a chunk count other than zero; as soon as one session was
    created with chunk count 0, the division for its progress raises
    [ZeroDivisionError], which nothing catches, and the listing fails as a
    whole. *)
Theorem route_list_answers self :
  (∃ entries,
     Router.list_uploading_files self = Responded entries ∧
     length entries = length (list_uploading_files self) ∧
     Forall (λ metadata, chunk_total metadata ≠ 0) (list_uploading_files self)) ∨
  (Router.list_uploading_files self = Failed ZeroDivisionError ∧
   Exists (λ metadata, chunk_total metadata = 0) (list_uploading_files self)).
Proof. apply list_entries_spec. Qed.

Lemma values_set_new {V} (d : PyDict.t V) k v :
  v ∈ PyDict.values (PyDict.set k v d).
Proof.
  unfold PyDict.values. induction d as [|[k' v'] d IH]; simpl.
  - by left.
  - destruct (String.eqb k' k); simpl; [by left|by right].
Qed.

(** X16: a first upload for a file id that declares chunk count 0 is
    taken as it is, whether its chunk hash is accepted or not, and from
    then on both [GET /status/{file_id}] for that id and [GET /list] fail
    with [ZeroDivisionError]. *)
Theorem zero_chunk_total_breaks_status chunk fid fname index fhash chunk_hash self :
  get_file_metadata fid self = None →
  Router.get_upload_status fid
    (snd (upload_chunk chunk fid fname index 0 fhash chunk_hash self))
  = Failed ZeroDivisionError ∧
  Router.list_uploading_files
    (snd (upload_chunk chunk fid fname index 0 fhash chunk_hash self))
  = Failed ZeroDivisionError.
Proof.
  unfold get_file_metadata. intros Hnew.
  assert (∃ metadata,
            chunk_total metadata = 0 ∧
            _file_metadata (snd (upload_chunk chunk fid fname index 0 fhash chunk_hash self))
            = PyDict.set fid metadata (_file_metadata self)) as (metadata & Hz & Hreg).
  { destruct (truthy chunk_hash) eqn:Ht;
      [destruct (decide (chunk_hash = Some (SHA256.hexdigest chunk))) as [Heq|Hne]|].
    2:{ rewrite upload_chunk_rejects by done. simpl. rewrite Hnew.
        eexists. split; [|reflexivity]. reflexivity. }
    all: rewrite upload_chunk_accepts by auto; simpl; rewrite Hnew.
    all: eexists; split; [|reflexivity]; reflexivity. }
  split.
  - unfold Router.get_upload_status, get_file_metadata. rewrite Hreg, get_set_eq.
    unfold Router.progress_of. by rewrite Hz.
  - destruct (list_entries_spec
                (list_uploading_files
                   (snd (upload_chunk chunk fid fname index 0 fhash chunk_hash self))))
      as [(entries & _ & _ & Hall)|[E _]]; [|exact E].
    exfalso. unfold list_uploading_files in Hall. rewrite Hreg in Hall.
    eapply Forall_forall in Hall; [|apply values_set_new]. done.
Qed.

Lemma zero_chunk_total_breaks_status_witness :
  Router.get_upload_status "z"
    (snd (upload_chunk Demo.AAA "z" "z.bin" 0 0 Demo.H None Demo.fresh))
  = Failed ZeroDivisionError ∧
  Router.list_uploading_files
    (snd (upload_chunk Demo.AAA "z" "z.bin" 0 0 Demo.H None Demo.fresh))
  = Failed ZeroDivisionError.
Proof.
  apply (zero_chunk_total_breaks_status Demo.AAA "z" "z.bin" 0 Demo.H None Demo.fresh).
  reflexivity.
Defined.

(** ** Hashing a file, and the shape of a digest *)

(** X17: [_calculate_file_hash] reads the file in blocks of 8192 bytes,
    and what it returns is the SHA-256 digest of the whole content, for a
    file of any length; on a path with no file it raises
    [FileNotFoundError].  It changes nothing. *)
Theorem calculate_file_hash_whole p self :
  _calculate_file_hash p self =
  match read_file (fs self) p with
  | Some content => (Return (SHA256.hexdigest content), self)
  | None => (Raise (FileNotFoundError p), self)
  end.
Proof.
  destruct (read_file (fs self) p) as [content|] eqn:E.
  - by apply calculate_file_hash_spec.
  - unfold _calculate_file_hash. apply bind_Raise. unfold open_rb_read. by rewrite E.
Qed.

Lemma be_bytes_length n x : length (SHA256.be_bytes n x) = n.
Proof. induction n as [|n IH]; simpl; [done|by rewrite IH]. Qed.

Lemma be_bytes_range n x : Forall (λ b, 0 ≤ b < 256) (SHA256.be_bytes n x).
Proof.
  induction n as [|n IH]; simpl; constructor; [|done].
  change 255 with (Z.ones 8). rewrite Z.land_ones by lia.
  apply Z.mod_pos_bound. lia.
Qed.

Lemma compress_length h block : length h = 8%nat → length (SHA256.compress h block) = 8%nat.
Proof. intros Hh. unfold SHA256.compress. rewrite length_zip_with, Hh. reflexivity. Qed.

Lemma blocks_length n : ∀ h bs, length h = 8%nat → length (SHA256.blocks n h bs) = 8%nat.
Proof.
  induction n as [|n IH]; intros h bs Hh; simpl; [done|].
  apply IH. by apply compress_length.
Qed.

Lemma digest_bytes msg :
  length (SHA256.digest msg) = 32%nat ∧ Forall (λ b, 0 ≤ b < 256) (SHA256.digest msg).
Proof.
  unfold SHA256.digest.
  set (words := SHA256.blocks _ _ _).
  assert (length words = 8%nat) as Hw by (by apply blocks_length).
  clearbody words. split.
  - destruct words as [|a [|b [|c [|d [|e [|f [|g [|h [|]]]]]]]]]; try discriminate Hw.
    reflexivity.
  - apply Forall_concat. apply Forall_forall. intros l Hl.
    apply list_elem_of_fmap in Hl as (x & -> & _). apply be_bytes_range.
Qed.

Lemma hexdigit_lower d : 0 ≤ d < 16 → is_lower_hex (SHA256.hexdigit d) = true.
Proof.
  intros Hd.
  assert (d = 0 ∨ d = 1 ∨ d = 2 ∨ d = 3 ∨ d = 4 ∨ d = 5 ∨ d = 6 ∨ d = 7 ∨ d = 8 ∨ d = 9 ∨
          d = 10 ∨ d = 11 ∨ d = 12 ∨ d = 13 ∨ d = 14 ∨ d = 15) as Hcases by lia.
  repeat (destruct Hcases as [->|Hcases]; [reflexivity|]). by subst.
Qed.

Lemma hex_shape bs :
  Forall (λ b, 0 ≤ b < 256) bs →
  String.length (SHA256.hex bs) = (2 * length bs)%nat ∧
  forallb is_lower_hex (list_ascii_of_string (SHA256.hex bs)) = true.
Proof.
  induction 1 as [|b bs Hb _ [IHl IHc]]; simpl; [done|].
  split; [rewrite IHl; lia|].
  rewrite !hexdigit_lower, IHc; [done| |].
  - apply Z.mod_pos_bound. lia.
  - split; [apply Z.div_pos; lia|apply Z.div_lt_upper_bound; lia].
Qed.

Lemma hexdigest_shape msg :
  String.length (SHA256.hexdigest msg) = 64%nat ∧
  forallb is_lower_hex (list_ascii_of_string (SHA256.hexdigest msg)) = true.
Proof.
  unfold SHA256.hexdigest. destruct (digest_bytes msg) as [Hlen Hrange].
  destruct (hex_shape _ Hrange) as [Hl Hc]. split; [by rewrite Hl, Hlen|done].
Qed.

(** X18: hashes are compared as strings with what [hexdigest()] gives, 64
    lower-case hexadecimal digits.  So [merge_chunks] returns only for a
    request whose [fileHash] has that shape: a digest sent in upper case,
    shortened or with a prefix makes every merge fail, whatever was
    uploaded. *)
Theorem merge_needs_lowercase_digest request self response self' :
  merge_chunks request self = (Return response, self') →
  String.length (MergeRequest.fileHash request) = 64%nat ∧
  forallb is_lower_hex (list_ascii_of_string (MergeRequest.fileHash request)) = true.
Proof.
  intros E. destruct (merge_chunks_Return_inv _ _ _ _ E) as (_ & content & _ & <-).
  apply hexdigest_shape.
Qed.

Lemma merge_needs_lowercase_digest_witness :
  String.length (MergeRequest.fileHash (merge_request "id1" "a.txt" Demo.H 3)) = 64%nat ∧
  forallb is_lower_hex
    (list_ascii_of_string (MergeRequest.fileHash (merge_request "id1" "a.txt" Demo.H 3)))
  = true.
Proof.
  assert (fst (merge_chunks (merge_request "id1" "a.txt" Demo.H 3) Demo.received_all) =
          Return {| MergeResponse.success := true;
                    MergeResponse.fileId := "id1";
                    MergeResponse.url :=
                      "http://localhost:8000/files/f565e5f4a898e80173e54aa68c8d35f4a3521aa29a0b60567b495ef17ecdfc4a.txt";
                    MergeResponse.message := MsgMerged |}) as Efst
    by (vm_compute; reflexivity).
  pose proof (surjective_pairing
                (merge_chunks (merge_request "id1" "a.txt" Demo.H 3) Demo.received_all))
    as E.
  rewrite Efst in E.
  exact (merge_needs_lowercase_digest _ _ _ _ E).
Defined.

(** ** The extension of a file name *)

Lemma rfind_from_spec c s : ∀ i last,
  (posixpath.rfind_from c s i last = last ∧ ∀ j, String.get j s ≠ Some c) ∨
  (i ≤ posixpath.rfind_from c s i last < i + Z.of_nat (String.length s) ∧
   String.get (Z.to_nat (posixpath.rfind_from c s i last - i)) s = Some c ∧
   ∀ j, (Z.to_nat (posixpath.rfind_from c s i last - i) < j)%nat → String.get j s ≠ Some c).
Proof.
  induction s as [|a s IH]; intros i last; simpl.
  - left. split; [done|]. intros j. by destruct j.
  - set (last' := if Ascii.eqb a c then i else last).
    destruct (IH (i + 1) last') as [[Hr Hnone]|(Hb & Hget & Hafter)].
    + rewrite Hr. unfold last'. destruct (Ascii.eqb_spec a c) as [->|Hne].
      * right. split; [lia|]. rewrite Z.sub_diag. split; [done|].
        intros j Hj. destruct j as [|j]; [simpl in Hj; lia|]. apply Hnone.
      * left. split; [done|]. intros [|j]; [congruence|apply Hnone].
    + right. set (r := posixpath.rfind_from c s (i + 1) last') in *.
      split; [lia|].
      replace (Z.to_nat (r - i)) with (S (Z.to_nat (r - (i + 1)))) by lia.
      split; [exact Hget|].
      intros j Hj. destruct j as [|j]; [lia|]. apply Hafter. lia.
Qed.

Lemma rfind_spec c s :
  (posixpath.rfind c s = -1 ∧ ∀ j, String.get j s ≠ Some c) ∨
  (0 ≤ posixpath.rfind c s < Z.of_nat (String.length s) ∧
   String.get (Z.to_nat (posixpath.rfind c s)) s = Some c ∧
   ∀ j, (Z.to_nat (posixpath.rfind c s) < j)%nat → String.get j s ≠ Some c).
Proof.
  unfold posixpath.rfind.
  destruct (rfind_from_spec c s 0 (-1)) as [H|(Hb & Hget & Hafter)]; [by left|].
  right. rewrite Z.sub_0_r in *. by rewrite Z.add_0_l in Hb.
Qed.

Lemma contains_false_get c s :
  (∀ j, String.get j s ≠ Some c) → posixpath.contains c s = false.
Proof.
  induction s as [|a s IH]; intros Hnone; simpl; [done|].
  destruct (Ascii.eqb_spec a c) as [->|Hne]; simpl.
  - by specialize (Hnone 0%nat).
  - apply IH. intros j. apply (Hnone (S j)).
Qed.

Lemma append_cons a s t : String.append (String a s) t = String a (String.append s t).
Proof. reflexivity. Qed.

Lemma substring_whole s : String.substring 0 (String.length s) s = s.
Proof. induction s as [|a s IH]; simpl; [done|by rewrite IH]. Qed.

Lemma substring_split s : ∀ n,
  (n ≤ String.length s)%nat →
  String.append (String.substring 0 n s) (String.substring n (String.length s - n) s) = s.
Proof.
  induction s as [|a s IH]; intros n Hn.
  - by destruct n.
  - destruct n as [|n].
    + rewrite Nat.sub_0_r, substring_whole. reflexivity.
    + simpl. rewrite append_cons. f_equal. apply IH. simpl in Hn. lia.
Qed.

Lemma skip_leading_dots_cases fuel p : ∀ f d,
  posixpath.skip_leading_dots fuel p f d = (p, EmptyString) ∨
  posixpath.skip_leading_dots fuel p f d = (posixpath.slice_to d p, posixpath.slice_from d p).
Proof.
  induction fuel as [|fuel IH]; intros f d; simpl; [by left|].
  destruct (f <? d); [|by left].
  destruct (String.get (Z.to_nat f) p) as [a|]; [|by right].
  destruct (Ascii.eqb_spec a "."%char) as [->|Hne]; [apply IH|].
  right. destruct a as [[] [] [] [] [] [] [] []]; try reflexivity. done.
Qed.

Lemma append_empty_r s : String.append s EmptyString = s.
Proof. induction s as [|a s IH]; [done|by rewrite append_cons, IH]. Qed.

Lemma splitext_shape p :
  String.append (fst (posixpath.splitext p)) (snd (posixpath.splitext p)) = p ∧
  (snd (posixpath.splitext p) = EmptyString ∨
   ∃ rest, snd (posixpath.splitext p) = String "." rest ∧
           posixpath.contains "." rest = false ∧
           posixpath.contains "/" rest = false).
Proof.
  unfold posixpath.splitext.
  destruct (Z.gtb_spec (posixpath.rfind "." p) (posixpath.rfind "/" p)) as [Hgt|Hle].
  2:{ simpl. split; [apply append_empty_r|by left]. }
  destruct (skip_leading_dots_cases (String.length p) p (posixpath.rfind "/" p + 1)
              (posixpath.rfind "." p)) as [->| ->]; simpl.
  { split; [apply append_empty_r|by left]. }
  destruct (rfind_spec "." p) as [[Hd _]|(Hdb & Hdget & Hdafter)].
  { destruct (rfind_spec "/" p) as [[Hs _]|(Hsb & _)]; lia. }
  set (d := Z.to_nat (posixpath.rfind "." p)) in *.
  unfold posixpath.slice_to, posixpath.slice_from. fold d.
  split; [apply substring_split; lia|]. right.
  set (ext := String.substring d (String.length p - d) p).
  assert (∀ k, (k < String.length p - d)%nat → String.get k ext = String.get (k + d) p)
    as Hin by (intros k Hk; by apply String.substring_correct1).
  assert (∀ k, (String.length p - d ≤ k)%nat → String.get k ext = None)
    as Hout by (intros k Hk; by apply String.substring_correct2).
  assert (String.get 0 ext = Some "."%char) as H0.
  { rewrite Hin by lia. exact Hdget. }
  destruct ext as [|a rest] eqn:Eext; [discriminate H0|].
  injection H0 as ->. exists rest. split; [done|]. split.
  - apply contains_false_get. intros j.
    destruct (decide (S j < String.length p - d)%nat) as [Hj|Hj].
    + specialize (Hin (S j) Hj). simpl in Hin. rewrite Hin. apply Hdafter. lia.
    + specialize (Hout (S j)). simpl in Hout. rewrite Hout by lia. done.
  - apply contains_false_get. intros j.
    destruct (decide (S j < String.length p - d)%nat) as [Hj|Hj].
    + specialize (Hin (S j) Hj). simpl in Hin. rewrite Hin.
      destruct (rfind_spec "/" p) as [[_ Hnone]|(Hsb & _ & Hsafter)]; [apply Hnone|].
      apply Hsafter. lia.
    + specialize (Hout (S j)). simpl in Hout. rewrite Hout by lia. done.
Qed.

(** X19: the extension [_get_file_extension] takes from a file name is
    the end of that name; it is empty, or a dot followed by characters
    among which there is no dot and no path separator.  So whatever file
    name a client sends, the extension adds no directory to the name of
    the artifact. *)
Theorem get_file_extension_shape filename :
  (∃ root, String.append root (_get_file_extension filename) = filename) ∧
  (_get_file_extension filename = EmptyString ∨
   ∃ rest, _get_file_extension filename = String "." rest ∧
           posixpath.contains "." rest = false ∧
           posixpath.contains "/" rest = false).
Proof.
  unfold _get_file_extension. destruct (posixpath.contains "." filename).
  - destruct (splitext_shape filename) as [Hround Hshape].
    split; [by eexists|exact Hshape].
  - split; [exists filename; apply append_empty_r|by left].
Qed.

(** ** Failures that cost more than the request *)

(** X20: for a merge request whose file id and artifact name are plain, on
    a service with plain names on disk.  The artifact is written under its final name before its digest is
    checked, and removed when the check fails.  So a merge whose chunks do
    not have the digest the request declares removes whatever artifact was
    published under that hash and extension before: afterwards no
    [verify_file] call for that hash and extension answers exists. *)
Theorem merge_failure_removes_published_artifact request self metadata chunks :
  plain_service self = true →
  plain_call (Merge request) = true →
  get_file_metadata (MergeRequest.fileId request) self = Some metadata →
  MergeRequest.chunkTotal request = Z.of_nat (length chunks) →
  uploaded_chunks metadata = list_to_set (seqZ 0 (MergeRequest.chunkTotal request)) →
  (∀ i c, chunks !! i = Some c →
          read_file (fs self) (ChunkFile (MergeRequest.fileId request) (Z.of_nat i)) = Some c) →
  SHA256.hexdigest (concat chunks) ≠ MergeRequest.fileHash request →
  ∀ vrequest,
    VerifyRequest.fileHash vrequest = MergeRequest.fileHash request →
    _get_file_extension (VerifyRequest.fileName vrequest) =
      _get_file_extension (MergeRequest.fileName request) →
    ∃ response,
      fst (verify_file vrequest (snd (merge_chunks request self))) = Return response ∧
      VerifyResponse.exists_ response = false ∧
      VerifyResponse.url response = None.
Proof.
  intros _ _ Hm Ht Hc Hs Hd vrequest Hh He.
  rewrite (merge_chunks_digest_differs request self metadata chunks Hm Ht Hc Hs Hd).
  cbn [snd]. unfold verify_file. rewrite bind_get_self. cbn [_file_metadata].
  destruct (PyDict.get _ _); [by eexists|]. cbn zeta.
  unfold get_upload_file_path, path_exists. rewrite Hh, He. simpl.
  rewrite lookup_delete_eq. destruct (List.find _ _); by eexists.
Qed.

Lemma merge_failure_removes_published_artifact_witness :
  path_exists (fs Demo2.second_claim) (UploadFile (String.append Demo.H ".txt")) = true ∧
  ∀ vrequest,
    VerifyRequest.fileHash vrequest =
      MergeRequest.fileHash (merge_request "id5" "b.txt" Demo.H 3) →
    _get_file_extension (VerifyRequest.fileName vrequest) =
      _get_file_extension (MergeRequest.fileName (merge_request "id5" "b.txt" Demo.H 3)) →
    ∃ response,
      fst (verify_file vrequest
             (snd (merge_chunks (merge_request "id5" "b.txt" Demo.H 3) Demo2.second_claim)))
      = Return response ∧
      VerifyResponse.exists_ response = false ∧
      VerifyResponse.url response = None.
Proof.
  split; [vm_compute; reflexivity|].
  apply (merge_failure_removes_published_artifact
           (merge_request "id5" "b.txt" Demo.H 3) Demo2.second_claim
           (add_chunk 2 (add_chunk 1 (add_chunk 0
              (FileMetadata_init "id5" "b.txt" Demo.H 3))))
           [Demo.AAA; Demo.CCC; Demo.CCC]).
  - vm_compute. reflexivity.
  - vm_compute. reflexivity.
  - vm_compute. reflexivity.
  - reflexivity.
  - vm_compute. reflexivity.
  - intros [|[|[|i]]] c Hi; vm_compute in Hi; try discriminate Hi;
      injection Hi as <-; vm_compute; reflexivity.
  - vm_compute. discriminate.
Defined.





(** ** The configured base URL *)

Lemma rstrip_slash_app_slash s :
  posixpath.rstrip_slash (String.append s "/") = posixpath.rstrip_slash s.
Proof.
  induction s as [|a s IH]; [reflexivity|].
  rewrite append_cons. cbn [posixpath.rstrip_slash]. by rewrite IH.
Qed.

Lemma endswith_slash_cons a s :
  s ≠ EmptyString →
  posixpath.endswith_slash (String a s) = posixpath.endswith_slash s.
Proof.
  intros Hs. destruct s as [|b s]; [done|].
  unfold posixpath.endswith_slash. cbn [String.length Nat.sub Nat.eqb negb].
  rewrite Nat.sub_0_r. reflexivity.
Qed.

Lemma endswith_slash_single a :
  Ascii.eqb a "/" = false → posixpath.endswith_slash (String a EmptyString) = false.
Proof.
  destruct a as [[] [] [] [] [] [] [] []]; vm_compute; congruence.
Qed.

Lemma rstrip_slash_stripped s :
  posixpath.endswith_slash (posixpath.rstrip_slash s) = false.
Proof.
  induction s as [|a s IH]; [reflexivity|].
  cbn [posixpath.rstrip_slash].
  destruct (posixpath.rstrip_slash s) as [|b t] eqn:E.
  - destruct (Ascii.eqb a "/") eqn:Ea; [reflexivity|].
    by apply endswith_slash_single.
  - by rewrite endswith_slash_cons.
Qed.

(** X23: the constructor strips the slashes that end the base URL.  A
    configuration built from a base URL with one more slash at its end is
    the same configuration, the stored base URL never ends with a slash,
    and so the URL of a file is the same for both. *)
Theorem base_url_trailing_slash up tp base m c n e fsp :
  UploadConfig_init up tp (String.append base "/") m c n e fsp =
    UploadConfig_init up tp base m c n e fsp ∧
  posixpath.endswith_slash (base_url (UploadConfig_init up tp base m c n e fsp)) = false ∧
  ∀ filename,
    get_file_url (UploadConfig_init up tp (String.append base "/") m c n e fsp) filename =
    get_file_url (UploadConfig_init up tp base m c n e fsp) filename.
Proof.
  unfold UploadConfig_init, get_file_url. cbn [base_url file_server_path].
  rewrite rstrip_slash_app_slash. split; [reflexivity|].
  split; [apply rstrip_slash_stripped|reflexivity].
Qed.

(** ** The hash index *)

Lemma index_bind {A B} (m : M A) (f : A → M B) :
  index_blind m → (∀ a, index_blind (f a)) → index_blind (m ≫= f).
Proof.
  intros Hm Hf self1 self2 HR. unfold mbind, M_bind.
  destruct (Hm self1 self2 HR) as [Hr HR'].
  destruct (m self1) as [[a1|e1] s1], (m self2) as [[a2|e2] s2]; simpl in *;
    try discriminate Hr.
  - injection Hr as ->. by apply Hf.
  - by injection Hr as ->.
Qed.

Lemma index_mret {A} (a : A) : index_blind (mret a).
Proof. by intros self1 self2 HR. Qed.

Lemma index_raise {A} e : index_blind (@raise A e).
Proof. by intros self1 self2 HR. Qed.

Lemma index_modify f :
  (∀ self1 self2, same_but_index self1 self2 → same_but_index (f self1) (f self2)) →
  index_blind (modify f).
Proof. intros Hf self1 self2 HR. split; [done|]. by apply Hf. Qed.

Lemma index_set_hash_to_file h :
  index_blind (modify (λ s, set_hash_to_file (h s) s)).
Proof. apply index_modify. by intros self1 self2 (Hc & Hf & Hm). Qed.

Lemma index_fs_try p op : index_blind (fs_try p op).
Proof.
  intros self1 self2 (Hc & Hf & Hm). unfold fs_try. rewrite Hf.
  destruct (op (fs self2)); simpl; by repeat split.
Qed.

Lemma index_open_rb_read p : index_blind (open_rb_read p).
Proof.
  intros self1 self2 (Hc & Hf & Hm). unfold open_rb_read. rewrite Hf.
  destruct (read_file (fs self2) p); simpl; by repeat split.
Qed.

Lemma index_file_write p content : index_blind (file_write p content).
Proof.
  apply index_bind; [apply index_open_rb_read|]. intros written. apply index_fs_try.
Qed.

Lemma index_lookup_metadata fid : index_blind (lookup_metadata fid).
Proof.
  intros self1 self2 (Hc & Hf & Hm). unfold lookup_metadata. rewrite Hm.
  destruct (PyDict.get fid (_file_metadata self2)); simpl; by repeat split.
Qed.

Lemma index_mutate_metadata fid f : index_blind (mutate_metadata fid f).
Proof.
  apply index_modify. intros self1 self2 (Hc & Hf & Hm). rewrite Hm.
  destruct (PyDict.get fid (_file_metadata self2)); by repeat split.
Qed.

Lemma index_del_metadata fid : index_blind (del_metadata fid).
Proof.
  intros self1 self2 (Hc & Hf & Hm). unfold del_metadata. rewrite Hm.
  destruct (PyDict.mem fid (_file_metadata self2)); simpl; by repeat split.
Qed.

Lemma index_check_all_uploaded U range : index_blind (check_all_uploaded U range).
Proof.
  induction range as [|i range IH]; simpl; [apply index_mret|].
  destruct (bool_decide _); [done|apply index_raise].
Qed.

Lemma index_merge_chunk_files_loop fid target range :
  index_blind (merge_chunk_files_loop fid target range).
Proof.
  induction range as [|i range IH]; simpl; [apply index_mret|].
  intros self1 self2 HR. rewrite !bind_get_self. cbn zeta. unfold get_chunk_file_path.
  pose proof HR as (_ & Hf & _). rewrite Hf.
  destruct (negb _); [by apply index_raise|].
  refine (index_bind _ _ (index_open_rb_read _) _ self1 self2 HR).
  intros content. apply index_bind; [apply index_file_write|done].
Qed.

Lemma index_cleanup_temp_files fid : index_blind (_cleanup_temp_files fid).
Proof.
  intros self1 self2 HR. unfold _cleanup_temp_files. rewrite !bind_get_self. cbn zeta.
  unfold get_temp_dir_path. destruct HR as (Hc & Hf & Hm). rewrite Hf.
  destruct (dir_exists _ _); simpl; [|by repeat split].
  split; [done|]. unfold same_but_index. simpl. by rewrite Hf.
Qed.

Lemma index_verify_file request : index_blind (verify_file request).
Proof.
  intros self1 self2 HR. unfold verify_file. rewrite !bind_get_self. cbn zeta.
  pose proof HR as (Hc & Hf & Hm). rewrite Hc, Hf, Hm.
  destruct (PyDict.get _ _); [by apply index_mret|].
  destruct (path_exists _ _).
  - refine (index_bind _ _ (index_set_hash_to_file _) _ self1 self2 HR).
    intros _. apply index_mret.
  - destruct (List.find _ _); by apply index_mret.
Qed.

Lemma index_upload_chunk chunk fid fname index total fhash chunk_hash :
  index_blind (upload_chunk chunk fid fname index total fhash chunk_hash).
Proof.
  intros self1 self2 HR. unfold upload_chunk. rewrite !bind_get_self. cbn zeta.
  pose proof HR as (Hc & Hf & Hm). rewrite Hc, Hm.
  revert self1 self2 HR Hc Hf Hm. intros self1 self2 HR _ _ _.
  refine (index_bind _ _ _ _ self1 self2 HR).
  { destruct (negb _); [|apply index_mret]. apply index_modify.
    intros s1 s2 (Hc & Hf & Hm). rewrite Hm. by repeat split. }
  intros _. apply index_bind; [apply index_lookup_metadata|]. intros _.
  apply index_bind.
  { apply index_modify. intros s1 s2 (Hc & Hf & Hm). unfold same_but_index. simpl.
    by rewrite Hf. }
  intros _. apply index_bind; [apply index_fs_try|]. intros _.
  apply index_bind.
  { destruct (truthy _); [|apply index_mret].
    destruct (negb _); [|apply index_mret].
    apply index_bind; [apply index_fs_try|]. intros _. apply index_raise. }
  intros _. apply index_bind; [apply index_mutate_metadata|]. intros _.
  apply index_bind; [apply index_lookup_metadata|]. intros metadata. apply index_mret.
Qed.

Lemma index_merge_chunks request : index_blind (merge_chunks request).
Proof.
  apply index_bind.
  { intros self1 self2 HR. unfold merge_chunks_checks. rewrite !bind_get_self.
    pose proof HR as (_ & _ & Hm). rewrite Hm.
    destruct (PyDict.get _ _); [|by apply index_raise].
    destruct (negb _); [by apply index_raise|]. by apply index_check_all_uploaded. }
  intros _ self1 self2 HR. unfold merge_chunks_assemble. rewrite !bind_get_self. cbn zeta.
  pose proof HR as (Hc & _). rewrite Hc. unfold get_upload_file_path.
  revert self1 self2 HR Hc. intros self1 self2 HR _.
  refine (index_bind _ _ _ _ self1 self2 HR).
  { apply index_bind; [apply index_fs_try|]. intros _. apply index_merge_chunk_files_loop. }
  intros _. apply index_bind.
  { apply index_bind; [apply index_open_rb_read|]. intros content. apply index_mret. }
  intros actual. apply index_bind.
  { destruct (negb _); [|apply index_mret].
    apply index_bind; [apply index_fs_try|]. intros _. apply index_raise. }
  intros _. apply index_bind; [apply index_cleanup_temp_files|]. intros _.
  apply index_bind; [apply index_set_hash_to_file|].
  intros _. apply index_bind; [apply index_del_metadata|]. intros _. apply index_mret.
Qed.

Lemma index_after c : ∀ self1 self2,
  same_but_index self1 self2 → same_but_index (after c self1) (after c self2).
Proof.
  intros self1 self2 HR. destruct c; simpl.
  - by apply index_verify_file.
  - by apply index_upload_chunk.
  - by apply index_merge_chunks.
Qed.

(** X24: the hash index [_hash_to_file] is written, by [verify_file] and
    [merge_chunks], and never read.  Two services that differ only in
    this index give the same response or the same exception to every
    call of [verify_file], [upload_chunk] and [merge_chunks], show the
    same sessions, and after any sequence of calls still differ in
    nothing but the index: whether a file is known is decided by the
    sessions and by the files on disk alone. *)
Theorem hash_index_never_read self1 self2 :
  same_but_index self1 self2 →
  (∀ request, fst (verify_file request self1) = fst (verify_file request self2)) ∧
  (∀ chunk fid fname index total fhash chunk_hash,
     fst (upload_chunk chunk fid fname index total fhash chunk_hash self1) =
     fst (upload_chunk chunk fid fname index total fhash chunk_hash self2)) ∧
  (∀ request, fst (merge_chunks request self1) = fst (merge_chunks request self2)) ∧
  list_uploading_files self1 = list_uploading_files self2 ∧
  (∀ fid, get_file_metadata fid self1 = get_file_metadata fid self2) ∧
  ∀ calls, same_but_index (after_all calls self1) (after_all calls self2).
Proof.
  intros HR.
  split; [intros request; by apply index_verify_file|].
  split; [intros chunk fid fname index total fhash chunk_hash; by apply index_upload_chunk|].
  split; [intros request; by apply index_merge_chunks|].
  pose proof HR as (_ & _ & Hm). unfold list_uploading_files, get_file_metadata.
  rewrite Hm. split; [done|]. split; [done|].
  intros calls. revert self1 self2 HR Hm. unfold after_all.
  induction calls as [|c calls IH]; intros self1 self2 HR Hm; [done|].
  simpl. pose proof (index_after c self1 self2 HR) as HR'.
  apply IH; [done|]. by destruct HR' as (_ & _ & ?).
Qed.

Lemma hash_index_never_read_witness :
  _hash_to_file Demo.received_all ≠ _hash_to_file (with_index_entry Demo.received_all) ∧
  (∀ request, fst (verify_file request Demo.received_all) =
              fst (verify_file request (with_index_entry Demo.received_all))) ∧
  (∀ chunk fid fname index total fhash chunk_hash,
     fst (upload_chunk chunk fid fname index total fhash chunk_hash Demo.received_all) =
     fst (upload_chunk chunk fid fname index total fhash chunk_hash
            (with_index_entry Demo.received_all))) ∧
  (∀ request, fst (merge_chunks request Demo.received_all) =
              fst (merge_chunks request (with_index_entry Demo.received_all))) ∧
  list_uploading_files Demo.received_all =
    list_uploading_files (with_index_entry Demo.received_all) ∧
  (∀ fid, get_file_metadata fid Demo.received_all =
          get_file_metadata fid (with_index_entry Demo.received_all)) ∧
  ∀ calls, same_but_index (after_all calls Demo.received_all)
             (after_all calls (with_index_entry Demo.received_all)).
Proof.
  split.
  - intros E. apply (f_equal (λ h, h !! "h"%string)) in E. vm_compute in E. discriminate E.
  - apply (hash_index_never_read Demo.received_all (with_index_entry Demo.received_all)).
    split; [reflexivity|]. split; reflexivity.
Defined.

(** ** Plain names stay plain *)

Lemma plain_keys_spec {V} (P : string → bool) (m : gmap string V) :
  forallb P (map fst (map_to_list m)) = true ↔ ∀ k, is_Some (m !! k) → P k = true.
Proof.
  rewrite forallb_forall. split.
  - intros H k [v Hv]. apply H, in_map_iff. exists (k, v). split; [done|].
    by apply list_elem_of_In, elem_of_map_to_list.
  - intros H k Hk. apply in_map_iff in Hk as ([k' v] & <- & Hin).
    apply H. exists v. by apply elem_of_map_to_list, list_elem_of_In.
Qed.

Lemma plain_fs_spec f :
  plain_fs f = true ↔
  (∀ k, is_Some (upload_files f !! k) → artifact_name k = true) ∧
  (∀ k, is_Some (temp_dirs f !! k) → plain_name k = true).
Proof.
  unfold plain_fs. rewrite andb_true_iff.
  by rewrite (plain_keys_spec artifact_name), (plain_keys_spec plain_name).
Qed.

Lemma plain_write_file p content f f' :
  plain_path p = true → plain_fs f = true → write_file p content f = Some f' →
  plain_fs f' = true.
Proof.
  rewrite !plain_fs_spec. intros Hp [Hu Ht] E. destruct p as [name|fid i]; simpl in *.
  - injection E as <-. simpl. split; [|done].
    intros k Hk. apply lookup_insert_is_Some in Hk as [<-|[_ Hk]]; auto.
  - destruct (temp_dirs f !! fid) as [dir|] eqn:Ed; [|done]. injection E as <-.
    simpl. split; [done|].
    intros k Hk. apply lookup_insert_is_Some in Hk as [<-|[_ Hk]]; auto.
Qed.

Lemma plain_remove_file p f f' :
  plain_fs f = true → remove_file p f = Some f' → plain_fs f' = true.
Proof.
  rewrite !plain_fs_spec. intros [Hu Ht] E. destruct p as [name|fid i]; simpl in *.
  - destruct (upload_files f !! name); [|done]. injection E as <-. simpl.
    split; [|done]. intros k Hk. apply lookup_delete_is_Some in Hk as [_ Hk]. auto.
  - destruct (temp_dirs f !! fid) as [dir|] eqn:Ed; [|done]. simpl in E.
    destruct (dir !! i); [|done]. injection E as <-. simpl. split; [done|].
    intros k Hk. apply lookup_insert_is_Some in Hk as [<-|[_ Hk]]; auto.
Qed.

Lemma plain_mkdir fid f :
  plain_name fid = true → plain_fs f = true → plain_fs (mkdir (TempDir fid) f) = true.
Proof.
  rewrite !plain_fs_spec. intros Hp [Hu Ht]. simpl.
  destruct (temp_dirs f !! fid); [done|]. simpl. split; [done|].
  intros k Hk. apply lookup_insert_is_Some in Hk as [<-|[_ Hk]]; auto.
Qed.

Lemma plain_rmtree d f : plain_fs f = true → plain_fs (rmtree d f) = true.
Proof.
  rewrite !plain_fs_spec. intros [Hu Ht]. destruct d as [fid]. simpl. split; [done|].
  intros k Hk. apply lookup_delete_is_Some in Hk as [_ Hk]. auto.
Qed.

Lemma plain_service_set_fs f self :
  plain_service self = true → plain_fs f = true → plain_service (set_fs f self) = true.
Proof.
  unfold plain_service. rewrite !andb_true_iff. simpl. by intros [? _] ?.
Qed.

Lemma plain_service_fs self : plain_service self = true → plain_fs (fs self) = true.
Proof. unfold plain_service. rewrite andb_true_iff. by intros [_ ?]. Qed.

Lemma keeps_plain_bind {A B} (m : M A) (f : A → M B) :
  keeps_plain m → (∀ a, keeps_plain (f a)) → keeps_plain (m ≫= f).
Proof.
  intros Hm Hf self H. unfold mbind, M_bind. specialize (Hm self H).
  destruct (m self) as [[a|e] self1]; simpl in *; [by apply Hf|done].
Qed.

Lemma keeps_plain_mret {A} (a : A) : keeps_plain (mret a).
Proof. by intros self H. Qed.

Lemma keeps_plain_raise {A} e : keeps_plain (@raise A e).
Proof. by intros self H. Qed.

Lemma keeps_plain_modify f :
  (∀ self, plain_service self = true → plain_service (f self) = true) →
  keeps_plain (modify f).
Proof. intros Hf self H. by apply Hf. Qed.

Lemma keeps_plain_fs_try p op :
  (∀ f f', plain_fs f = true → op f = Some f' → plain_fs f' = true) →
  keeps_plain (fs_try p op).
Proof.
  intros Hop self H. unfold fs_try. destruct (op (fs self)) as [f'|] eqn:E; [|done].
  simpl. apply plain_service_set_fs; [done|].
  eapply Hop; [|exact E]. by apply plain_service_fs.
Qed.

Lemma keeps_plain_open_wb_write p content :
  plain_path p = true → keeps_plain (open_wb_write p content).
Proof. intros Hp. apply keeps_plain_fs_try. intros f f'. by apply plain_write_file. Qed.

Lemma keeps_plain_os_remove p : keeps_plain (os_remove p).
Proof. apply keeps_plain_fs_try. intros f f'. apply plain_remove_file. Qed.

Lemma keeps_plain_open_rb_read p : keeps_plain (open_rb_read p).
Proof. intros self H. unfold open_rb_read. by destruct (read_file _ _). Qed.

Lemma keeps_plain_file_write p content :
  plain_path p = true → keeps_plain (file_write p content).
Proof.
  intros Hp. apply keeps_plain_bind; [apply keeps_plain_open_rb_read|].
  intros written. by apply keeps_plain_open_wb_write.
Qed.

Lemma keeps_plain_lookup_metadata fid : keeps_plain (lookup_metadata fid).
Proof. intros self H. unfold lookup_metadata. by destruct (PyDict.get _ _). Qed.

Lemma keeps_plain_mutate_metadata fid f : keeps_plain (mutate_metadata fid f).
Proof.
  apply keeps_plain_modify. intros self H. by destruct (PyDict.get _ _).
Qed.

Lemma keeps_plain_del_metadata fid : keeps_plain (del_metadata fid).
Proof. intros self H. unfold del_metadata. by destruct (PyDict.mem _ _). Qed.

Lemma keeps_plain_check_all_uploaded U range : keeps_plain (check_all_uploaded U range).
Proof.
  induction range as [|i range IH]; simpl; [apply keeps_plain_mret|].
  destruct (bool_decide _); [done|apply keeps_plain_raise].
Qed.

Lemma keeps_plain_merge_chunk_files_loop fid target range :
  plain_path target = true → keeps_plain (merge_chunk_files_loop fid target range).
Proof.
  intros Hp. induction range as [|i range IH]; simpl; [apply keeps_plain_mret|].
  intros self H. rewrite bind_get_self. cbn zeta.
  destruct (negb _); [by apply keeps_plain_raise|].
  refine (keeps_plain_bind _ _ (keeps_plain_open_rb_read _) _ self H).
  intros content. apply keeps_plain_bind; [by apply keeps_plain_file_write|done].
Qed.

Lemma keeps_plain_cleanup_temp_files fid : keeps_plain (_cleanup_temp_files fid).
Proof.
  intros self H. unfold _cleanup_temp_files. rewrite bind_get_self. cbn zeta.
  destruct (dir_exists _ _); [|done].
  apply plain_service_set_fs; [done|]. by apply plain_rmtree, plain_service_fs.
Qed.

Lemma keeps_plain_verify_file request : keeps_plain (verify_file request).
Proof.
  intros self H. unfold verify_file. rewrite bind_get_self.
  destruct (PyDict.get _ _); [done|]. cbn zeta.
  destruct (path_exists _ _); [done|]. by destruct (List.find _ _).
Qed.

Lemma keeps_plain_upload_chunk chunk fid fname index total fhash chunk_hash :
  plain_name fid = true →
  keeps_plain (upload_chunk chunk fid fname index total fhash chunk_hash).
Proof.
  intros Hp self H. unfold upload_chunk. rewrite bind_get_self. cbn zeta.
  unfold get_temp_dir_path, get_chunk_file_path.
  refine (keeps_plain_bind _ _ _ _ self H).
  { destruct (negb _); [|apply keeps_plain_mret]. by apply keeps_plain_modify. }
  intros _. apply keeps_plain_bind; [apply keeps_plain_lookup_metadata|]. intros _.
  apply keeps_plain_bind.
  { apply keeps_plain_modify. intros s Hs. apply plain_service_set_fs; [done|].
    by apply plain_mkdir, plain_service_fs. }
  intros _. apply keeps_plain_bind; [by apply keeps_plain_open_wb_write|]. intros _.
  apply keeps_plain_bind.
  { destruct (truthy _); [|apply keeps_plain_mret].
    destruct (negb _); [|apply keeps_plain_mret].
    apply keeps_plain_bind; [apply keeps_plain_os_remove|]. intros _.
    apply keeps_plain_raise. }
  intros _. apply keeps_plain_bind; [apply keeps_plain_mutate_metadata|]. intros _.
  apply keeps_plain_bind; [apply keeps_plain_lookup_metadata|]. intros metadata.
  apply keeps_plain_mret.
Qed.

Lemma keeps_plain_merge_chunks request :
  plain_call (Merge request) = true → keeps_plain (merge_chunks request).
Proof.
  simpl. rewrite andb_true_iff. intros [Hid Hname].
  apply keeps_plain_bind.
  { intros self H. unfold merge_chunks_checks. rewrite bind_get_self.
    destruct (PyDict.get _ _); [|done].
    destruct (negb _); [done|]. by apply keeps_plain_check_all_uploaded. }
  intros _ self H. unfold merge_chunks_assemble. rewrite bind_get_self. cbn zeta.
  unfold get_upload_file_path.
  refine (keeps_plain_bind _ _ _ _ self H).
  { apply keeps_plain_bind; [by apply keeps_plain_open_wb_write|]. intros _.
    by apply keeps_plain_merge_chunk_files_loop. }
  intros _. apply keeps_plain_bind.
  { apply keeps_plain_bind; [apply keeps_plain_open_rb_read|]. intros content.
    apply keeps_plain_mret. }
  intros actual. apply keeps_plain_bind.
  { destruct (negb _); [|apply keeps_plain_mret].
    apply keeps_plain_bind; [apply keeps_plain_os_remove|]. intros _.
    apply keeps_plain_raise. }
  intros _. apply keeps_plain_bind; [apply keeps_plain_cleanup_temp_files|]. intros _.
  apply keeps_plain_bind; [by apply keeps_plain_modify|].
  intros _. apply keeps_plain_bind; [apply keeps_plain_del_metadata|]. intros _.
  apply keeps_plain_mret.
Qed.

Lemma plain_service_after c self :
  plain_service self = true → plain_call c = true → plain_service (after c self) = true.
Proof.
  intros H Hc. destruct c; simpl.
  - by apply keeps_plain_verify_file.
  - by apply keeps_plain_upload_chunk.
  - by apply keeps_plain_merge_chunks.
Qed.

(** X25: the services the statements about files are made on are those a
    deployment with the default layout is in as long as its clients send
    plain names.  A service that starts on an empty disk has plain names
    on disk, and it still has after any sequence of requests whose file
    ids and artifact names are plain, however each request ends. *)
Theorem plain_service_always cfg calls :
  default_layout cfg = true →
  forallb plain_call calls = true →
  plain_service (after_all calls (UploadService_init cfg Demo.empty_disk)) = true.
Proof.
  intros Hcfg. unfold after_all.
  assert (plain_service (UploadService_init cfg Demo.empty_disk) = true) as Hinit.
  { unfold plain_service. simpl. by rewrite Hcfg. }
  revert Hinit. generalize (UploadService_init cfg Demo.empty_disk).
  induction calls as [|c calls IH]; intros self H Hcalls; simpl; [done|].
  simpl in Hcalls. apply andb_true_iff in Hcalls as [Hc Hcalls].
  apply IH; [|done]. by apply plain_service_after.
Qed.

Lemma plain_service_always_witness :
  plain_service
    (after_all [Upload Demo.BBB "id1" "a.txt" 1 3 Demo.H None;
                Upload Demo.AAA "id1" "a.txt" 0 3 Demo.H (Some "00"%string);
                Merge (merge_request "id1" "a.txt" Demo.H 3);
                Verify (verify_request "../x" "" "temp")]
       (UploadService_init default_config Demo.empty_disk)) = true.
Proof.
  apply (plain_service_always default_config
           [Upload Demo.BBB "id1" "a.txt" 1 3 Demo.H None;
            Upload Demo.AAA "id1" "a.txt" 0 3 Demo.H (Some "00"%string);
            Merge (merge_request "id1" "a.txt" Demo.H 3);
            Verify (verify_request "../x" "" "temp")]).
  - vm_compute. reflexivity.
  - vm_compute. reflexivity.
Defined.

(** ** The paths of plain names *)

Lemma append_inj_l a x y : String.append a x = String.append a y → x = y.
Proof.
  induction a as [|c a IH]; [done|]. rewrite !append_cons. intros E.
  injection E as E. by apply IH.
Qed.

Lemma append_assoc_r a b c :
  String.append (String.append a b) c = String.append a (String.append b c).
Proof. induction a as [|d a IH]; [done|]. by rewrite !append_cons, IH. Qed.

Lemma append_nonempty a b : b ≠ EmptyString → String.append a b ≠ EmptyString.
Proof. destruct a; [done|]. by rewrite append_cons. Qed.

Lemma contains_append c a b :
  posixpath.contains c (String.append a b) =
  posixpath.contains c a || posixpath.contains c b.
Proof.
  induction a as [|d a IH]; [done|]. rewrite append_cons. simpl.
  by rewrite IH, orb_assoc.
Qed.

Lemma plain_name_inv s :
  plain_name s = true → s ≠ EmptyString ∧ posixpath.contains "/" s = false.
Proof.
  unfold plain_name. rewrite !andb_true_iff, !negb_true_iff.
  intros [[[[Hne _] _] Hslash] _]. split; [|done]. intros ->. discriminate Hne.
Qed.

Lemma artifact_name_inv s :
  artifact_name s = true →
  s ≠ EmptyString ∧ posixpath.contains "/" s = false ∧ s ≠ "temp"%string.
Proof.
  unfold artifact_name. rewrite andb_true_iff, negb_true_iff.
  intros [Hp Ht]. destruct (plain_name_inv s Hp) as [? ?].
  split; [done|]. split; [done|]. intros ->. discriminate Ht.
Qed.

Lemma endswith_slash_append x y :
  y ≠ EmptyString →
  posixpath.endswith_slash (String.append x y) = posixpath.endswith_slash y.
Proof.
  intros Hy. induction x as [|a x IH]; [done|].
  rewrite append_cons, endswith_slash_cons; [done|]. by apply append_nonempty.
Qed.

Lemma endswith_slash_free y :
  posixpath.contains "/" y = false → posixpath.endswith_slash y = false.
Proof.
  induction y as [|a y IH]; [done|]. simpl. intros H.
  apply orb_false_iff in H as [Ha Hy].
  destruct y as [|b y]; [by apply endswith_slash_single|].
  rewrite endswith_slash_cons by done. by apply IH.
Qed.

Lemma join_plain a b :
  posixpath.contains "/" b = false →
  posixpath.join a b =
  if (String.length a =? 0)%nat || posixpath.endswith_slash a
  then String.append a b else String.append a (String "/" b).
Proof.
  intros H. unfold posixpath.join. destruct b as [|c b]; [done|].
  simpl in H. apply orb_false_iff in H as [Hc _].
  destruct c as [[] [] [] [] [] [] [] []]; try reflexivity. discriminate Hc.
Qed.

Lemma join_dir a b :
  a ≠ EmptyString → posixpath.endswith_slash a = false →
  posixpath.contains "/" b = false →
  posixpath.join a b = String.append a (String "/" b).
Proof.
  intros Ha He Hb. rewrite join_plain, He by done. by destruct a.
Qed.

Lemma pretty_N_go_no_slash x : ∀ s,
  posixpath.contains "/" s = false → posixpath.contains "/" (pretty_N_go x s) = false.
Proof.
  induction (N.lt_wf_0 x) as [x _ IH]; intros s Hs.
  assert (x = 0 ∨ 0 < x)%N as [->|Hx] by lia; [by rewrite pretty_N_go_0|].
  rewrite pretty_N_go_step by done. apply IH; [by apply N.div_lt|].
  simpl. rewrite Hs, orb_false_r. unfold pretty_N_char. by repeat case_match.
Qed.

Lemma pretty_N_no_slash (x : N) : posixpath.contains "/" (pretty x) = false.
Proof.
  unfold pretty, pretty_N. case_decide; [done|]. by apply pretty_N_go_no_slash.
Qed.

Lemma str_no_slash i : posixpath.contains "/" (str i) = false.
Proof.
  unfold str, pretty, pretty_Z. destruct i as [|x|x]; [done|apply pretty_N_no_slash|].
  simpl. apply pretty_N_no_slash.
Qed.

(** The three kinds of path, written from one prefix. *)
Lemma os_path_forms config :
  default_layout config = true →
  ∃ pre,
    temp_path config = String.append pre "temp" ∧
    (∀ name, posixpath.contains "/" name = false →
             os_path config (UploadFile name) = String.append pre name) ∧
    (∀ fid, plain_name fid = true →
            os_dir_path config (TempDir fid) =
            String.append pre (String.append "temp" (String "/" fid))) ∧
    (∀ fid i, plain_name fid = true →
              os_path config (ChunkFile fid i) =
              String.append pre
                (String.append "temp"
                   (String "/" (String.append fid (String "/" (str i)))))).
Proof.
  unfold default_layout. intros Ht. apply String.eqb_eq in Ht.
  set (u := upload_path config) in *.
  set (pre := if (String.length u =? 0)%nat || posixpath.endswith_slash u
              then u else String.append u "/").
  assert (∀ name, posixpath.contains "/" name = false →
                  posixpath.join u name = String.append pre name) as Hjoin.
  { intros name Hn. rewrite join_plain by done. unfold pre.
    destruct (_ || _); [done|]. by rewrite append_assoc_r. }
  assert (temp_path config = String.append pre "temp") as Htemp.
  { rewrite Ht. by apply Hjoin. }
  assert (∀ fid, plain_name fid = true →
                 posixpath.join (temp_path config) fid =
                 String.append pre (String.append "temp" (String "/" fid))) as Hdir.
  { intros fid Hf. destruct (plain_name_inv fid Hf) as [_ Hslash].
    rewrite join_dir; [|rewrite Htemp; by apply append_nonempty| |done].
    - by rewrite Htemp, append_assoc_r.
    - rewrite Htemp, endswith_slash_append by done. reflexivity. }
  exists pre. split; [done|]. split; [exact Hjoin|]. split; [exact Hdir|].
  intros fid i Hf. destruct (plain_name_inv fid Hf) as [Hne Hslash].
  simpl. rewrite Hdir by done.
  rewrite join_dir.
  - rewrite !append_assoc_r. by rewrite !append_cons.
  - by apply append_nonempty, append_nonempty.
  - rewrite !endswith_slash_append; [|done|by apply append_nonempty].
    rewrite endswith_slash_cons by done. by apply endswith_slash_free.
  - apply str_no_slash.
Qed.

Lemma slash_split a b x y :
  posixpath.contains "/" a = false → posixpath.contains "/" b = false →
  String.append a (String "/" x) = String.append b (String "/" y) →
  a = b ∧ x = y.
Proof.
  revert b. induction a as [|c a IH]; intros [|d b] Ha Hb E.
  - injection E as ->. done.
  - rewrite append_cons in E. injection E as <- _. simpl in Hb. discriminate Hb.
  - rewrite append_cons in E. injection E as -> _. simpl in Ha. discriminate Ha.
  - rewrite !append_cons in E. injection E as -> E. simpl in Ha, Hb.
    apply orb_false_iff in Ha as [_ Ha]. apply orb_false_iff in Hb as [_ Hb].
    destruct (IH b Ha Hb E) as [-> ->]. done.
Qed.

(** X26: the structured paths are the paths of the code on plain names.
    With the temporary directory in its default place, the strings
    [os.path.join] builds for artifacts and chunk files of plain names
    are different for different names, a chunk file lies in the staging
    directory of its file id, and no file path is a staging directory or
    the temporary directory. *)
Theorem os_path_plain config :
  default_layout config = true → paths_apart config.
Proof.
  intros Hl. destruct (os_path_forms config Hl) as (pre & Htemp & Hup & Hdir & Hchunk).
  assert (∀ p, plain_path p = true →
               ∃ rest, os_path config p = String.append pre rest ∧
                       rest ≠ "temp"%string ∧
                       match p with
                       | UploadFile name => rest = name ∧ posixpath.contains "/" name = false
                       | ChunkFile fid i =>
                           rest = String.append "temp"
                                    (String "/" (String.append fid (String "/" (str i)))) ∧
                           posixpath.contains "/" fid = false
                       end) as Hform.
  { intros [name|fid i] Hp; simpl in Hp.
    - destruct (artifact_name_inv name Hp) as (_ & Hslash & Hnt).
      exists name. by rewrite Hup.
    - destruct (plain_name_inv fid Hp) as [_ Hslash].
      eexists. split; [by apply Hchunk|]. split; [|done]. by rewrite !append_cons. }
  repeat split.
  - intros p q Hp Hq E.
    destruct (Hform p Hp) as (rp & Ep & _ & Fp), (Hform q Hq) as (rq & Eq & _ & Fq).
    rewrite Ep, Eq in E. apply append_inj_l in E. subst rq.
    destruct p as [n1|f1 i1], q as [n2|f2 i2].
    + destruct Fp as [-> _], Fq as [-> _]. done.
    + destruct Fp as [-> Hs], Fq as [-> _]. rewrite !append_cons in Hs.
      simpl in Hs. discriminate Hs.
    + destruct Fp as [-> _], Fq as [<- Hs]. rewrite !append_cons in Hs.
      simpl in Hs. discriminate Hs.
    + destruct Fp as [-> H1], Fq as [E H2]. rewrite !append_cons in E.
      injection E as E. apply slash_split in E as [-> E]; [|done..].
      apply (inj pretty) in E. by subst.
  - intros fid1 fid2 H1 H2 E. rewrite !Hdir in E by done.
    apply append_inj_l in E. rewrite !append_cons in E. by injection E.
  - intros fid i Hf. rewrite Hchunk, Hdir by done.
    rewrite !append_assoc_r. by rewrite !append_cons.
  - intros p fid Hp Hf E. destruct (plain_name_inv fid Hf) as [_ Hslash].
    destruct (Hform p Hp) as (rp & Ep & _ & Fp).
    rewrite Ep, Hdir in E by done. apply append_inj_l in E. subst rp.
    destruct p as [name|f i].
    + destruct Fp as [E Hs]. rewrite <- E, !append_cons in Hs. simpl in Hs.
      discriminate Hs.
    + destruct Fp as [E Hs]. rewrite !append_cons in E. injection E as E.
      rewrite E, contains_append in Hslash. simpl in Hslash.
      by rewrite orb_true_r in Hslash.
  - intros p Hp E. destruct (Hform p Hp) as (rp & Ep & Hnt & _).
    rewrite Ep, Htemp in E. by apply append_inj_l in E.
Qed.

Lemma os_path_plain_witness : paths_apart default_config.
Proof.
  apply (os_path_plain default_config). vm_compute. reflexivity.
Defined.
